(** * The project store of pkg/api/customization/project

    A shallow embedding of [project_store.go]: the store wrapper that
    annotates projects on create, validates the two quota fields on create
    and update, and refuses to delete system projects.

    Go strings are byte strings ([string]); the request payload
    [map[string]interface{}] is a finite map of dynamically typed values;
    the calls the wrapper makes to its collaborators are recorded in a
    trace, so that "the store is not invoked" is a statement about the
    program. *)

From Stdlib Require Import ZArith Ascii String List Lia.
From stdpp Require Import base option list strings sorting gmap fin_maps.

Local Open Scope string_scope.
Local Set Warnings "-register-all".

(** ** Package strings *)

Module strings.

(** [strings.HasPrefix]. *)
Fixpoint HasPrefix (s prefix : string) : bool :=
  match prefix, s with
  | EmptyString, _ => true
  | String p prefix', String c s' =>
      if Ascii.eqb c p then HasPrefix s' prefix' else false
  | String _ _, EmptyString => false
  end.

(** [strings.Index]: the byte offset of the first occurrence of [sep],
    [None] standing for -1. *)
Fixpoint Index (s sep : string) : option nat :=
  if HasPrefix s sep then Some 0%nat
  else match s with
       | EmptyString => None
       | String _ s' => S <$> Index s' sep
       end.

(** The slices [s[:m]] and [s[m:]]. *)
Fixpoint take (m : nat) (s : string) : string :=
  match m, s with
  | S m', String c s' => String c (take m' s')
  | _, _ => EmptyString
  end.

Fixpoint drop (m : nat) (s : string) : string :=
  match m, s with
  | S m', String _ s' => drop m' s'
  | _, _ => s
  end.

(** The loop of [genSplit(s, sep, 0, -1)]: cut at the next separator,
    continue behind it, and end with what is left.  Go bounds the loop by
    the number of separators counted beforehand; [fuel] plays that part,
    and [length s] always suffices for a separator that is not empty. *)
Fixpoint genSplit (fuel : nat) (s sep : string) : list string :=
  match fuel with
  | O => [s]
  | S fuel' =>
      match Index s sep with
      | None => [s]
      | Some m => take m s :: genSplit fuel' (drop (m + String.length sep) s) sep
      end
  end.

(** [strings.Split] for a separator that is not empty.  (For the empty
    separator Go takes another path, [explode], which cuts after each
    UTF-8 sequence; the store always passes [":"].) *)
Definition Split (s sep : string) : list string :=
  genSplit (String.length s) s sep.

(** [strings.Join]. *)
Fixpoint Join (elems : list string) (sep : string) : string :=
  match elems with
  | [] => ""
  | [e] => e
  | e :: elems' => e ++ sep ++ Join elems' sep
  end.

End strings.

(** ** Package httperror, and Go's [error] *)

Module httperror.

(** The error codes this file uses. *)
Inductive ErrorCode : Type :=
| MethodNotAllowed
| MissingRequired
| MaxLimitExceeded.

(** [APIError]: [NewAPIError] leaves the field name empty,
    [NewFieldAPIError] sets it; neither sets a cause. *)
Record APIError : Type := mkAPIError {
  Code : ErrorCode;
  Message : string;
  FieldName : string
}.

Definition NewAPIError (code : ErrorCode) (message : string) : APIError :=
  {| Code := code; Message := message; FieldName := "" |}.

Definition NewFieldAPIError (code : ErrorCode) (fieldName message : string) : APIError :=
  {| Code := code; Message := message; FieldName := fieldName |}.

End httperror.

(** A value of Go's interface [error]: an API error built by this package,
    or any other error value, which the store never inspects and which is
    identified here by its text. *)
Inductive error : Type :=
| ErrAPI (e : httperror.APIError)
| ErrOther (text : string).

(** ** Package utf8 *)

Module utf8.

Definition byte (c : ascii) : N := N_of_ascii c.

Definition RuneError : N := 0xFFFD.
Definition RuneSelf : N := 0x80.

(** The table [first] with [acceptRanges]: for a leading byte of a
    sequence of several bytes, the length of the sequence and the range
    its second byte must lie in; [None] for a byte that leads nothing. *)
Definition first (s0 : N) : option (nat * N * N) :=
  if (s0 <? 0xC2)%N then None
  else if (s0 <=? 0xDF)%N then Some (2%nat, 0x80, 0xBF)%N
  else if (s0 =? 0xE0)%N then Some (3%nat, 0xA0, 0xBF)%N
  else if (s0 <=? 0xEC)%N then Some (3%nat, 0x80, 0xBF)%N
  else if (s0 =? 0xED)%N then Some (3%nat, 0x80, 0x9F)%N
  else if (s0 <=? 0xEF)%N then Some (3%nat, 0x80, 0xBF)%N
  else if (s0 =? 0xF0)%N then Some (4%nat, 0x90, 0xBF)%N
  else if (s0 <=? 0xF3)%N then Some (4%nat, 0x80, 0xBF)%N
  else if (s0 =? 0xF4)%N then Some (4%nat, 0x80, 0x8F)%N
  else None.

Definition outside (lo hi : N) (c : ascii) : bool :=
  (byte c <? lo)%N || (hi <? byte c)%N.

(** The payload bits of a leading byte ([mask]) and of a continuation
    byte. *)
Definition lead (mask : N) (c : ascii) : N := N.land (byte c) mask.
Definition tail (c : ascii) : N := N.land (byte c) 0x3F.

(** [utf8.DecodeRuneInString]: the first rune of [s] and its width in
    bytes; [(RuneError, 1)] for an encoding that is not valid,
    [(RuneError, 0)] for the empty string. *)
Definition DecodeRuneInString (s : string) : N * nat :=
  match s with
  | EmptyString => (RuneError, 0%nat)
  | String c0 s1 =>
      if (byte c0 <? RuneSelf)%N then (byte c0, 1%nat)
      else
        match first (byte c0) with
        | None => (RuneError, 1%nat)
        | Some (sz, lo, hi) =>
            if (String.length s <? sz)%nat then (RuneError, 1%nat)
            else
              match s1 with
              | EmptyString => (RuneError, 1%nat)
              | String c1 s2 =>
                  if outside lo hi c1 then (RuneError, 1%nat)
                  else if (sz <=? 2)%nat
                  then (N.lor (N.shiftl (lead 0x1F c0) 6) (tail c1), 2%nat)
                  else
                    match s2 with
                    | EmptyString => (RuneError, 1%nat)
                    | String c2 s3 =>
                        if outside 0x80 0xBF c2 then (RuneError, 1%nat)
                        else if (sz <=? 3)%nat
                        then (N.lor (N.shiftl (lead 0x0F c0) 12)
                                (N.lor (N.shiftl (tail c1) 6) (tail c2)), 3%nat)
                        else
                          match s3 with
                          | EmptyString => (RuneError, 1%nat)
                          | String c3 _ =>
                              if outside 0x80 0xBF c3 then (RuneError, 1%nat)
                              else (N.lor (N.shiftl (lead 0x07 c0) 18)
                                      (N.lor (N.shiftl (tail c1) 12)
                                         (N.lor (N.shiftl (tail c2) 6) (tail c3))), 4%nat)
                          end
                    end
              end
        end
  end.

End utf8.

(** ** Package encoding/json, as far as [Marshal] of a
       [map[string][]string] goes *)

Module json.

(** A [[]string]: [None] is the nil slice, which [append] never returns. *)
Definition slice : Type := option (list string).

Definition append (s : slice) (x : string) : slice :=
  Some (default [] s ++ [x])%list.

Definition hex (d : N) : ascii :=
  match String.get (N.to_nat d) "0123456789abcdef" with
  | Some c => c
  | None => "0"%char
  end.

Definition quote : ascii := "034"%char.
Definition backslash : ascii := "092"%char.

(** [htmlSafeSet]: the bytes below [utf8.RuneSelf] that are written as
    they are when HTML escaping is on, as it is for [Marshal]. *)
Definition htmlSafeSet (c : ascii) : bool :=
  (0x20 <=? utf8.byte c)%N
  && negb (Ascii.eqb c quote) && negb (Ascii.eqb c backslash)
  && negb (Ascii.eqb c "<"%char) && negb (Ascii.eqb c ">"%char)
  && negb (Ascii.eqb c "&"%char).

(** The [switch] on a byte that is not safe. *)
Definition escape (c : ascii) : string :=
  if Ascii.eqb c backslash || Ascii.eqb c quote then String backslash (String c "")
  else if Ascii.eqb c "010"%char then String backslash "n"
  else if Ascii.eqb c "013"%char then String backslash "r"
  else if Ascii.eqb c "009"%char then String backslash "t"
  else String backslash "u00"
         ++ String (hex (N.shiftr (utf8.byte c) 4))
              (String (hex (N.land (utf8.byte c) 0xF)) "").

(** The loop of [encodeState.string]: safe bytes are copied, the others
    escaped; a byte that does not start a valid UTF-8 sequence becomes
    the escape of U+FFFD, and U+2028 and U+2029 are escaped.  Each round
    consumes at least one byte, so [fuel = len(s)] is enough. *)
Fixpoint stringLoop (fuel : nat) (s : string) : string :=
  match fuel, s with
  | S fuel', String b s' =>
      if (utf8.byte b <? utf8.RuneSelf)%N
      then (if htmlSafeSet b then String b "" else escape b) ++ stringLoop fuel' s'
      else
        let '(c, size) := utf8.DecodeRuneInString s in
        if (c =? utf8.RuneError)%N && (size =? 1)%nat
        then String backslash "ufffd" ++ stringLoop fuel' (strings.drop size s)
        else if (c =? 0x2028)%N || (c =? 0x2029)%N
        then String backslash "u202"
               ++ String (hex (N.land c 0xF)) (stringLoop fuel' (strings.drop size s))
        else strings.take size s ++ stringLoop fuel' (strings.drop size s)
  | _, _ => ""
  end.

Definition encodeString (s : string) : string :=
  String quote (stringLoop (String.length s) s ++ String quote "").

(** Elements separated by commas. *)
Fixpoint join (l : list string) : string :=
  match l with
  | [] => ""
  | [x] => x
  | x :: l' => x ++ "," ++ join l'
  end.

(** A slice of strings: [null] when nil, otherwise an array. *)
Definition encodeSlice (s : slice) : string :=
  match s with
  | None => "null"
  | Some l => "[" ++ join (encodeString <$> l) ++ "]"
  end.

(** The order in which the members of a map are written: by key. *)
Definition keyLe (a b : string * slice) : Prop := String.leb a.1 b.1 = true.

#[global] Instance keyLe_dec : RelDecision keyLe :=
  fun a b => decide (String.leb a.1 b.1 = true).

Definition encodeMember (kv : string * slice) : string :=
  encodeString kv.1 ++ ":" ++ encodeSlice kv.2.

(** A map: its members in the order of their keys. *)
Definition encodeMap (m : gmap string slice) : string :=
  "{" ++ join (encodeMember <$> merge_sort keyLe (map_to_list m)) ++ "}".

(** [json.Marshal] of a map that is not nil; it has no way to fail on
    this type. *)
Definition Marshal (m : gmap string slice) : string * option error :=
  (encodeMap m, None).

End json.

(** ** Dynamically typed payload values *)

(** What [interface{}] holds in a decoded request body.  A number is kept as
    the bit pattern of its float64; nothing here looks inside one. *)
Inductive value : Type :=
| VNil
| VBool (b : bool)
| VFloat64 (bits : N)
| VString (s : string)
| VSlice (l : list value)
| VMap (m : gmap string value).

(** A [map[string]interface{}] variable: [None] is the nil map. *)
Abbreviation payload := (option (gmap string value)).

(** [v, ok := data[key]]: a nil map reads as an empty one. *)
Definition index (data : payload) (key : string) : value * bool :=
  match data ≫= (fun m => m !! key) with
  | Some v => (v, true)
  | None => (VNil, false)
  end.

(** ** The listed types of package v3 *)

Module v3.

(** Of a project the store reads only the labels.  A nil label map reads
    as an empty one. *)
Record Project : Type := mkProject {
  Labels : gmap string string
}.

Record RoleTemplate : Type := mkRoleTemplate {
  Name : string;
  ProjectCreatorDefault : bool;
  Locked : bool
}.

(** Modelled from the spec: the declaration of [ResourceQuotaLimit] is
    not part of this package; the specification describes a limit set as
    a mapping from resource names, an open set, to quantity strings. *)
Definition ResourceQuotaLimit : Type := gmap string string.

End v3.

Module mgmtclient.

(** Modelled from the spec: the client-side limit set has the shape of
    [v3.ResourceQuotaLimit]. *)
Definition ResourceQuotaLimit : Type := gmap string string.

(** The quotas hold their limits by pointer: [None] is nil. *)
Record NamespaceResourceQuota : Type := mkNamespaceResourceQuota {
  ns_Limit : option ResourceQuotaLimit
}.

Record ProjectResourceQuota : Type := mkProjectResourceQuota {
  Limit : option ResourceQuotaLimit;
  UsedLimit : option ResourceQuotaLimit
}.

End mgmtclient.

(** ** Package values *)

Module values.

(** The loop of [values.PutValue] over a map that is not nil: walk down
    the keys, making the maps that are missing; the last key receives the
    value.  The walk gives up, leaving everything as it is, on an entry
    that exists and is not a map. *)
Fixpoint putValue (m : gmap string value) (val : value) (keys : list string)
    : gmap string value :=
  match keys with
  | [] => m
  | key :: keys' =>
      match keys' with
      | [] => <[key := val]> m
      | _ :: _ =>
          match m !! key with
          | Some (VMap newMap) => <[key := VMap (putValue newMap val keys')]> m
          | Some _ => m
          | None => <[key := VMap (putValue ∅ val keys')]> m
          end
      end
  end.

(** [values.PutValue(data, val, keys...)]: nothing happens to a nil map.
    The map is changed in place; the result is the map afterwards. *)
Definition PutValue (data : payload) (val : value) (keys : list string) : payload :=
  (fun m => putValue m val keys) <$> data.

End values.

(** [m[key]] on a [map[string]string]: the empty string when the key is
    missing. *)
Definition index_string (m : gmap string string) (key : string) : string :=
  default "" (m !! key).

(** ** Constants *)

Definition roleTemplatesRequired : string := "authz.management.cattle.io/creator-role-bindings".
Definition quotaField : string := "resourceQuota".
Definition namespaceQuotaField : string := "namespaceDefaultResourceQuota".

(** ** Calls, traces and the monad of the store's methods *)

Section ProjectStore.

(** The request context and the schema are handed through untouched. *)
Context {APIContext Schema : Type}.

(** What a store method returns: [(map[string]interface{}, error)]. *)
Definition result : Type := payload * option error.

(** One call to a collaborator, with the arguments it was given. *)
Inductive event : Type :=
| EvRoleTemplateList (namespace : string)
| EvProjectGet (namespace name : string)
| EvStoreCreate (apiContext : APIContext) (schema : Schema) (data : payload)
| EvStoreUpdate (apiContext : APIContext) (schema : Schema) (data : payload) (id : string)
| EvStoreDelete (apiContext : APIContext) (schema : Schema) (id : string).

(** A method either returns or panics (index out of range, nil pointer). *)
Inductive outcome (A : Type) : Type :=
| Returns (a : A)
| Panics.
Global Arguments Returns {A} a.
Global Arguments Panics {A}.

(** A computation extends the trace of calls made so far. *)
Definition M (A : Type) : Type := list event → outcome A * list event.

#[global] Instance M_ret : MRet M := fun A a tr => (Returns a, tr).
#[global] Instance M_bind : MBind M := fun A B f c tr =>
  match c tr with
  | (Returns a, tr') => f a tr'
  | (Panics, tr') => (Panics, tr')
  end.

Definition panic {A : Type} : M A := fun tr => (Panics, tr).

(** Perform a call: log it, then give back what the collaborator answers. *)
Definition call {A : Type} (ev : event) (answer : A) : M A :=
  fun tr => (Returns answer, (tr ++ [ev])%list).

(** [parts[i]]. *)
Definition at_index (parts : list string) (i : nat) : M string :=
  match parts !! i with
  | Some p => mret p
  | None => panic
  end.

(** Following a pointer. *)
Definition deref {A : Type} (p : option A) : M A :=
  match p with
  | Some a => mret a
  | None => panic
  end.

(** ** The collaborators *)

(** [types.Store], as far as the wrapper overrides it. *)
Record Store : Type := mkStore {
  Store_Create : APIContext → Schema → payload → result;
  Store_Update : APIContext → Schema → payload → string → result;
  Store_Delete : APIContext → Schema → string → result
}.

(** [v3.ProjectLister.Get(namespace, name)]. *)
Definition ProjectLister : Type :=
  string → string → option v3.Project * option error.

(** [v3.RoleTemplateLister.List(namespace, selector)]; the store always
    asks for every template of namespace [""]. *)
Definition RoleTemplateLister : Type :=
  string → list v3.RoleTemplate * option error.

Record projectStore : Type := mkProjectStore {
  embedded : Store;
  projectLister : ProjectLister;
  roleTemplateLister : RoleTemplateLister
}.

(** ** Delete *)

Definition systemProjectLabel : string := "authz.management.cattle.io/system-project".

Definition Delete (s : projectStore) (apiContext : APIContext) (schema : Schema)
    (id : string) : M result :=
  let parts := strings.Split id ":" in
  namespace ← at_index parts 0;
  name ← at_index parts (length parts - 1);
  '(proj, err) ← call (EvProjectGet namespace name) (projectLister s namespace name);
  match err with
  | Some e => mret (None, Some e)
  | None =>
      proj ← deref proj;
      if decide (index_string (v3.Labels proj) systemProjectLabel = "true")
      then mret (None, Some (ErrAPI (httperror.NewAPIError httperror.MethodNotAllowed
                                       "System Project cannot be deleted")))
      else call (EvStoreDelete apiContext schema id)
                (Store_Delete (embedded s) apiContext schema id)
  end.

(** ** The functions of other packages *)

(** [convert.ToObj] at the three types it is used at, each giving the
    target after the call and the error, and [resourcequota.IsQuotaFit]. *)
Record Imports : Type := mkImports {
  ToObj_namespaceQuota : value → mgmtclient.NamespaceResourceQuota * option error;
  ToObj_projectQuota : value → mgmtclient.ProjectResourceQuota * option error;
  ToObj_limit : option mgmtclient.ResourceQuotaLimit → v3.ResourceQuotaLimit * option error;
  IsQuotaFit : v3.ResourceQuotaLimit → list v3.ResourceQuotaLimit → v3.ResourceQuotaLimit
               → bool * string * option error
}.

(** ** createProjectAnnotation *)

(** [annoMap["required"]]: the nil slice when the key is missing. *)
Definition index_slice (annoMap : gmap string json.slice) (key : string) : json.slice :=
  default None (annoMap !! key).

(** One round of the loop over the role templates. *)
Definition annotate (annoMap : gmap string json.slice) (role : v3.RoleTemplate)
    : gmap string json.slice :=
  if v3.ProjectCreatorDefault role && negb (v3.Locked role)
  then <["required" := json.append (index_slice annoMap "required") (v3.Name role)]> annoMap
  else annoMap.

Definition createProjectAnnotation (s : projectStore) : M (string * option error) :=
  '(rt, err) ← call (EvRoleTemplateList "") (roleTemplateLister s "");
  match err with
  | Some e => mret ("", Some e)
  | None =>
      let annoMap := fold_left annotate rt ∅ in
      let '(d, err) := json.Marshal annoMap in
      match err with
      | Some e => mret ("", Some e)
      | None => mret (d, None)
      end
  end.

(** ** validateResourceQuota *)

Definition is_nil (v : value) : bool :=
  match v with VNil => true | _ => false end.

Definition limitToLimit (im : Imports) (from : option mgmtclient.ResourceQuotaLimit)
    : v3.ResourceQuotaLimit * option error :=
  ToObj_limit im from.

Definition validateResourceQuota (im : Imports) (apiContext : APIContext) (schema : Schema)
    (data : payload) (id : string) : option error :=
  let '(quotaO, quotaOk) := index data quotaField in
  let quotaOk := if is_nil quotaO then false else quotaOk in
  let '(nsQuotaO, namespaceQuotaOk) := index data namespaceQuotaField in
  let namespaceQuotaOk := if is_nil nsQuotaO then false else namespaceQuotaOk in
  if negb (Bool.eqb quotaOk namespaceQuotaOk) then
    if quotaOk
    then Some (ErrAPI (httperror.NewFieldAPIError httperror.MissingRequired namespaceQuotaField ""))
    else Some (ErrAPI (httperror.NewFieldAPIError httperror.MissingRequired quotaField ""))
  else
    let '(nsQuota, err) := ToObj_namespaceQuota im nsQuotaO in
    match err with
    | Some e => Some e
    | None =>
        let '(projectQuota, err) := ToObj_projectQuota im quotaO in
        match err with
        | Some e => Some e
        | None =>
            let '(projectQuotaLimit, err) := limitToLimit im (mgmtclient.Limit projectQuota) in
            match err with
            | Some e => Some e
            | None =>
                let '(nsQuotaLimit, err) := limitToLimit im (mgmtclient.ns_Limit nsQuota) in
                match err with
                | Some e => Some e
                | None =>
                    let '(isFit, msg, err) := IsQuotaFit im nsQuotaLimit [] projectQuotaLimit in
                    if bool_decide (err ≠ None) || isFit then err
                    else Some (ErrAPI (httperror.NewFieldAPIError httperror.MaxLimitExceeded
                                         namespaceQuotaField
                                         ("exceeds " ++ quotaField ++ " on fields: " ++ msg)))
                end
            end
        end
    end.

(** ** Create and Update *)

(** Both give, next to what the method returns, the caller's payload map
    as the method leaves it. *)
Definition Create (s : projectStore) (im : Imports) (apiContext : APIContext)
    (schema : Schema) (data : payload) : M (result * payload) :=
  '(annotation, err) ← createProjectAnnotation s;
  match err with
  | Some e => mret ((None, Some e), data)
  | None =>
      match validateResourceQuota im apiContext schema data "" with
      | Some e => mret ((None, Some e), data)
      | None =>
          let data := values.PutValue data (VString annotation)
                        ["annotations"; roleTemplatesRequired] in
          r ← call (EvStoreCreate apiContext schema data)
                   (Store_Create (embedded s) apiContext schema data);
          mret (r, data)
      end
  end.

Definition Update (s : projectStore) (im : Imports) (apiContext : APIContext)
    (schema : Schema) (data : payload) (id : string) : M (result * payload) :=
  match validateResourceQuota im apiContext schema data id with
  | Some e => mret ((None, Some e), data)
  | None =>
      r ← call (EvStoreUpdate apiContext schema data id)
               (Store_Update (embedded s) apiContext schema data id);
      mret (r, data)
  end.

End ProjectStore.

(** ** Package resourcequota, and the conversions of package convert *)

Module resourcequota.

Section Checker.

(** The quantity parser of the Kubernetes API machinery: the magnitude
    of a quantity string in a common base unit, [None] for a string
    that is no quantity. *)
Context (ParseQuantity : string → option Z).

Inductive verdict : Type :=
| Fits
| Exceeds
| Malformed.

(** One resource of the child against the parent: a name the parent
    does not bound fits; otherwise both quantities are parsed and
    compared. *)
Definition check (parent : v3.ResourceQuotaLimit) (name quantity : string) : verdict :=
  match parent !! name with
  | None => Fits
  | Some bound =>
      match ParseQuantity quantity, ParseQuantity bound with
      | Some c, Some p => if (c <=? p)%Z then Fits else Exceeds
      | _, _ => Malformed
      end
  end.

(** The names of the child that exceed the parent, or the parse error. *)
Definition violations (child parent : v3.ResourceQuotaLimit) : option (list string) :=
  foldr (fun kv acc =>
           match check parent kv.1 kv.2, acc with
           | Malformed, _ => None
           | _, None => None
           | Fits, Some names => Some names
           | Exceeds, Some names => Some (kv.1 :: names)
           end)
        (Some []) (map_to_list child).

(** Each tier against the next one up. *)
Fixpoint chain (child : v3.ResourceQuotaLimit) (tiers : list v3.ResourceQuotaLimit)
    : option (list string) :=
  match tiers with
  | [] => Some []
  | tier :: tiers' =>
      match violations child tier, chain tier tiers' with
      | Some names, Some names' => Some (names ++ names')%list
      | _, _ => None
      end
  end.

Fixpoint commas (names : list string) : string :=
  match names with
  | [] => ""
  | [name] => name
  | name :: names' => name ++ ", " ++ commas names'
  end.

(** Modelled from the spec: [resourcequota.IsQuotaFit] is not part of
    this package.  The child fits when each of its resources is within
    the parent's bound for the same name, a name the parent lacks being
    unbounded; a quantity that does not parse is an error; the message
    lists every resource that does not fit.  The middle tiers, of which
    the store passes none, bound one another in a chain. *)
Definition IsQuotaFit (child : v3.ResourceQuotaLimit)
    (intermediate : list v3.ResourceQuotaLimit) (parent : v3.ResourceQuotaLimit)
    : bool * string * option error :=
  match chain child (intermediate ++ [parent])%list with
  | None => (false, "", Some (ErrOther "ParseError"))
  | Some [] => (true, "", None)
  | Some names => (false, commas names, None)
  end.

End Checker.

End resourcequota.

Module convert.

(** The entries of a limit object: strings are kept, nulls leave the
    resource unset, anything else does not convert. *)
Definition toLimit (m : gmap string value) : option (gmap string string) :=
  map_fold (fun name v acc =>
              match v, acc with
              | VString quantity, Some limit => Some (<[name := quantity]> limit)
              | VNil, Some limit => Some limit
              | _, _ => None
              end)
           (Some ∅) m.

(** A field that holds a pointer to a limit set: missing or null is nil. *)
Definition toLimitField (m : gmap string value) (field : string)
    : option (option mgmtclient.ResourceQuotaLimit) :=
  match m !! field with
  | None | Some VNil => Some None
  | Some (VMap limit) => Some <$> toLimit limit
  | Some _ => None
  end.

Definition conversionError : error := ErrOther "ConversionError".

(** Modelled from the spec: the quota types of the client package are not
    part of this package.  [convert.ToObj] passes the value through JSON
    into the target: a nil value leaves the target at its zero value; an
    object fills the limit fields it names; any other shape is a
    conversion error. *)
Definition ToObj_namespaceQuota (v : value)
    : mgmtclient.NamespaceResourceQuota * option error :=
  match v with
  | VNil => (mgmtclient.mkNamespaceResourceQuota None, None)
  | VMap m =>
      match toLimitField m "limit" with
      | Some limit => (mgmtclient.mkNamespaceResourceQuota limit, None)
      | None => (mgmtclient.mkNamespaceResourceQuota None, Some conversionError)
      end
  | _ => (mgmtclient.mkNamespaceResourceQuota None, Some conversionError)
  end.

Definition ToObj_projectQuota (v : value)
    : mgmtclient.ProjectResourceQuota * option error :=
  match v with
  | VNil => (mgmtclient.mkProjectResourceQuota None None, None)
  | VMap m =>
      match toLimitField m "limit", toLimitField m "usedLimit" with
      | Some limit, Some used => (mgmtclient.mkProjectResourceQuota limit used, None)
      | _, _ => (mgmtclient.mkProjectResourceQuota None None, Some conversionError)
      end
  | _ => (mgmtclient.mkProjectResourceQuota None None, Some conversionError)
  end.

(** The client-side limit set into the v3 one: the same entries; a nil
    pointer gives the zero value. *)
Definition ToObj_limit (from : option mgmtclient.ResourceQuotaLimit)
    : v3.ResourceQuotaLimit * option error :=
  (default ∅ from, None).

End convert.

(** The store's imports, with the quantity parser left open. *)
Definition imports (ParseQuantity : string → option Z) : Imports :=
  {| ToObj_namespaceQuota := convert.ToObj_namespaceQuota;
     ToObj_projectQuota := convert.ToObj_projectQuota;
     ToObj_limit := convert.ToObj_limit;
     IsQuotaFit := resourcequota.IsQuotaFit ParseQuantity |}.

(** ** Reading JSON text

    The store only writes JSON.  To say what an annotation decodes to, this
    is a reader for JSON texts (RFC 8259) without numbers, which the
    annotation never holds. *)

Module jsontext.

Inductive tree : Type :=
| JNull
| JBool (b : bool)
| JString (s : string)
| JArray (elements : list tree)
| JObject (members : list (string * tree)).

Definition isSpace (c : ascii) : bool :=
  Ascii.eqb c " "%char || Ascii.eqb c "009"%char
  || Ascii.eqb c "010"%char || Ascii.eqb c "013"%char.

Fixpoint skipSpace (s : string) : string :=
  match s with
  | String c s' => if isSpace c then skipSpace s' else s
  | EmptyString => s
  end.

(** The value of a hexadecimal digit. *)
Definition unhex (c : ascii) : option N :=
  let n := utf8.byte c in
  if (48 <=? n)%N && (n <=? 57)%N then Some (n - 48)%N
  else if (97 <=? n)%N && (n <=? 102)%N then Some (n - 87)%N
  else if (65 <=? n)%N && (n <=? 70)%N then Some (n - 55)%N
  else None.

Definition unhex4 (h1 h2 h3 h4 : ascii) : option N :=
  a ← unhex h1; b ← unhex h2; c ← unhex h3; d ← unhex h4;
  Some (N.lor (N.shiftl a 12) (N.lor (N.shiftl b 8) (N.lor (N.shiftl c 4) d))).

Definition char (n : N) : ascii := ascii_of_N n.

(** The UTF-8 encoding of a code point of the basic plane; the halves of
    a surrogate pair are not read. *)
Definition encodeRune (r : N) : option string :=
  if (r <? 0x80)%N then Some (String (char r) "")
  else if (r <? 0x800)%N
  then Some (String (char (N.lor 0xC0 (N.shiftr r 6)))
               (String (char (N.lor 0x80 (N.land r 0x3F))) ""))
  else if (0xD800 <=? r)%N && (r <=? 0xDFFF)%N then None
  else Some (String (char (N.lor 0xE0 (N.shiftr r 12)))
               (String (char (N.lor 0x80 (N.land (N.shiftr r 6) 0x3F)))
                  (String (char (N.lor 0x80 (N.land r 0x3F))) ""))).

(** What a backslash and the character [e] stand for. *)
Definition unescape (e : ascii) : option ascii :=
  if Ascii.eqb e json.quote then Some json.quote
  else if Ascii.eqb e json.backslash then Some json.backslash
  else if Ascii.eqb e "/"%char then Some "/"%char
  else if Ascii.eqb e "b"%char then Some "008"%char
  else if Ascii.eqb e "f"%char then Some "012"%char
  else if Ascii.eqb e "n"%char then Some "010"%char
  else if Ascii.eqb e "r"%char then Some "013"%char
  else if Ascii.eqb e "t"%char then Some "009"%char
  else None.

(** The characters of a string up to its closing quote, and the text
    behind it. *)
Fixpoint readString (s : string) : option (string * string) :=
  match s with
  | EmptyString => None
  | String c s' =>
      if Ascii.eqb c json.quote then Some ("", s')
      else if Ascii.eqb c json.backslash then
        match s' with
        | EmptyString => None
        | String e s'' =>
            if Ascii.eqb e "u"%char then
              match s'' with
              | String h1 (String h2 (String h3 (String h4 s4))) =>
                  r ← unhex4 h1 h2 h3 h4;
                  bytes ← encodeRune r;
                  '(str, rest) ← readString s4;
                  Some (bytes ++ str, rest)
              | _ => None
              end
            else
              x ← unescape e;
              '(str, rest) ← readString s'';
              Some (String x str, rest)
        end
      else if (utf8.byte c <? 0x20)%N then None
      else
        '(str, rest) ← readString s';
        Some (String c str, rest)
  end.

Section Values.

(** The reader of the values one level down. *)
Context (readValue : string → option (tree * string)).

(** The elements of an array after the first bracket or a comma. *)
Fixpoint readMore (fuel : nat) (s : string) : option (list tree * string) :=
  match fuel with
  | O => None
  | S fuel' =>
      '(v, s1) ← readValue s;
      match skipSpace s1 with
      | String c s2 =>
          if Ascii.eqb c ","%char then
            '(vs, s3) ← readMore fuel' s2; Some (v :: vs, s3)
          else if Ascii.eqb c "]"%char then Some ([v], s2)
          else None
      | EmptyString => None
      end
  end.

Definition readElements (fuel : nat) (s : string) : option (list tree * string) :=
  match skipSpace s with
  | String c s' => if Ascii.eqb c "]"%char then Some ([], s') else readMore fuel s
  | EmptyString => None
  end.

(** The members of an object after the first brace or a comma. *)
Fixpoint readMembers (fuel : nat) (s : string)
    : option (list (string * tree) * string) :=
  match fuel with
  | O => None
  | S fuel' =>
      match skipSpace s with
      | String q s0 =>
          if Ascii.eqb q json.quote then
            '(key, s1) ← readString s0;
            match skipSpace s1 with
            | String colon s2 =>
                if Ascii.eqb colon ":"%char then
                  '(v, s3) ← readValue s2;
                  match skipSpace s3 with
                  | String c s4 =>
                      if Ascii.eqb c ","%char then
                        '(ms, s5) ← readMembers fuel' s4; Some ((key, v) :: ms, s5)
                      else if Ascii.eqb c "}"%char then Some ([(key, v)], s4)
                      else None
                  | EmptyString => None
                  end
                else None
            | EmptyString => None
            end
          else None
      | EmptyString => None
      end
  end.

Definition readObject (fuel : nat) (s : string)
    : option (list (string * tree) * string) :=
  match skipSpace s with
  | String c s' => if Ascii.eqb c "}"%char then Some ([], s') else readMembers fuel s
  | EmptyString => None
  end.

End Values.

Fixpoint readValue (fuel : nat) (s : string) : option (tree * string) :=
  match fuel with
  | O => None
  | S fuel' =>
      match skipSpace s with
      | EmptyString => None
      | String c s' =>
          if Ascii.eqb c json.quote then
            '(str, rest) ← readString s'; Some (JString str, rest)
          else if Ascii.eqb c "["%char then
            '(vs, rest) ← readElements (readValue fuel') fuel' s'; Some (JArray vs, rest)
          else if Ascii.eqb c "{"%char then
            '(ms, rest) ← readObject (readValue fuel') fuel' s'; Some (JObject ms, rest)
          else if strings.HasPrefix s "null" then Some (JNull, strings.drop 4 s)
          else if strings.HasPrefix s "true" then Some (JBool true, strings.drop 4 s)
          else if strings.HasPrefix s "false" then Some (JBool false, strings.drop 5 s)
          else None
      end
  end.

(** A whole text: one value and nothing but space around it.  Every
    step of the reader consumes a character, so the length of the text
    is fuel enough. *)
Definition Unmarshal (s : string) : option tree :=
  match readValue (S (String.length s)) s with
  | Some (t, rest) => if String.eqb (skipSpace rest) "" then Some t else None
  | None => None
  end.

(** The strings of an array of strings. *)
Definition stringsOf (t : tree) : option (list string) :=
  match t with
  | JArray elements =>
      mapM (fun e => match e with JString s => Some s | _ => None end) elements
  | _ => None
  end.

(** The keys of an object. *)
Definition keys (t : tree) : option (list string) :=
  match t with
  | JObject members => Some (members.*1)
  | _ => None
  end.

(** The strings an object lists under a key: none when the key is missing
    or holds something else, as a Go reader of a [map[string][]string]
    sees it. *)
Definition listed (key : string) (t : tree) : list string :=
  match t with
  | JObject members =>
      match list_find (fun m => m.1 = key) members with
      | Some (_, (_, v)) => default [] (stringsOf v)
      | None => []
      end
  | _ => []
  end.

End jsontext.

(** * Properties *)

(** ** Vocabulary of the statements *)

(** A field is present when the payload holds it with a value that is not
    nil. *)
Definition present (data : payload) (field : string) : bool :=
  match data ≫= (fun m => m !! field) with
  | Some v => negb (is_nil v)
  | None => false
  end.

Definition missingRequired (field : string) : error :=
  ErrAPI (httperror.NewFieldAPIError httperror.MissingRequired field "").

(** The field that is absent when [resourceQuota] is or is not there. *)
Definition absentField (data : payload) : string :=
  if present data quotaField then namespaceQuotaField else quotaField.

(** A call to the wrapped store. *)
Definition isStoreCall {APIContext Schema : Type} (ev : @event APIContext Schema) : bool :=
  match ev with
  | EvStoreCreate _ _ _ | EvStoreUpdate _ _ _ _ | EvStoreDelete _ _ _ => true
  | _ => false
  end.

(** The store calls among the events a computation adds to a trace. *)
Definition storeCalls {APIContext Schema : Type} (tr : list (@event APIContext Schema))
    : list (@event APIContext Schema) :=
  List.filter isStoreCall tr.

(** A string without a colon. *)
Definition noColon (s : string) : Prop := strings.Index s ":" = None.

(** The segments of an id the store hands to the project lister. *)
Definition clusterPart (id : string) : string :=
  hd "" (strings.Split id ":").

Definition projectPart (id : string) : string :=
  default "" (last (strings.Split id ":")).

(** The error a delete of a system project gets. *)
Definition systemProjectError : error :=
  ErrAPI (httperror.NewAPIError httperror.MethodNotAllowed "System Project cannot be deleted").

(** The names of the role templates that are creator defaults and not
    locked, in the order of the listing. *)
Definition creatorDefaults (rt : list v3.RoleTemplate) : list string :=
  v3.Name <$> List.filter (fun role => v3.ProjectCreatorDefault role && negb (v3.Locked role)) rt.

(** The UTF-8 encoding of U+FFFD. *)
Definition replacement : string :=
  String "239"%char (String "191"%char (String "189"%char EmptyString)).

(** A string with each byte that starts no valid UTF-8 sequence replaced by
    U+FFFD: what is left of a string that went through [json.encodeString].
    [fuel] bounds the rounds as it does there. *)
Fixpoint scrubLoop (fuel : nat) (s : string) : string :=
  match fuel, s with
  | S fuel', String _ _ =>
      let '(c, size) := utf8.DecodeRuneInString s in
      if (c =? utf8.RuneError)%N && (size =? 1)%nat
      then replacement ++ scrubLoop fuel' (strings.drop size s)
      else strings.take size s ++ scrubLoop fuel' (strings.drop size s)
  | _, _ => ""
  end.

Definition scrub (s : string) : string := scrubLoop (String.length s) s.

(** A string of bytes below [utf8.RuneSelf], as the names of Kubernetes
    objects are. *)
Fixpoint isASCII (s : string) : bool :=
  match s with
  | EmptyString => true
  | String c s' => (utf8.byte c <? utf8.RuneSelf)%N && isASCII s'
  end.

(** Every byte there is. *)
Definition allBytes : list ascii := ascii_of_nat <$> seq 0 256.

(** Reading [chunk] gives [out] and goes on behind it. *)
Definition passes (chunk out : string) : Prop :=
  ∀ t, jsontext.readString (chunk ++ t)
       = '(str, rest) ← jsontext.readString t; Some (out ++ str, rest).

(** The map the loop of [createProjectAnnotation] has built once it has
    accepted [names]: no entry before the first name. *)
Definition annoMapOf (names : list string) : gmap string json.slice :=
  match names with
  | [] => ∅
  | _ :: _ => {["required" := Some names]}
  end.

(** The JSON value that map stands for. *)
Definition annoTreeOf (names : list string) : jsontext.tree :=
  match names with
  | [] => jsontext.JObject []
  | _ :: _ =>
      jsontext.JObject
        [("required", jsontext.JArray (jsontext.JString <$> (scrub <$> names)))]
  end.

(** The value a payload holds at [annotations], under the key of the
    creator role bindings. *)
Definition creatorRoleBindings (data : payload) : option value :=
  m ← data; v ← m !! "annotations";
  match v with
  | VMap annotations => annotations !! roleTemplatesRequired
  | _ => None
  end.

(** A JSON object with exactly one key, ["required"], over a list of
    strings. *)
Definition requiredOnly (t : jsontext.tree) : Prop :=
  ∃ v names, t = jsontext.JObject [("required", v)] ∧ jsontext.stringsOf v = Some names.

(** The payload [Create] hands on. *)
Definition annotated (data : payload) (annotation : string) : payload :=
  values.PutValue data (VString annotation) ["annotations"; roleTemplatesRequired].

(** A string of bytes that [json.encodeString] copies as they are: below
    [utf8.RuneSelf] and in [json.htmlSafeSet], as the letters, digits,
    dashes and dots of Kubernetes names are. *)
Fixpoint isPlain (s : string) : bool :=
  match s with
  | EmptyString => true
  | String c s' => (utf8.byte c <? utf8.RuneSelf)%N && json.htmlSafeSet c && isPlain s'
  end.

(** A string between two quotes. *)
Definition quoted (s : string) : string :=
  String json.quote (s ++ String json.quote "").

(** What makes a role template count for the annotation. *)
Definition qualifies (role : v3.RoleTemplate) : bool :=
  v3.ProjectCreatorDefault role && negb (v3.Locked role).

(** ** Examples *)

Definition owner : v3.RoleTemplate := v3.mkRoleTemplate "owner" true false.
Definition editor : v3.RoleTemplate := v3.mkRoleTemplate "editor" true false.
Definition legacy : v3.RoleTemplate := v3.mkRoleTemplate "legacy" true true.

(** A store over a wrapped store that answers every write with the payload
    it was given, with fixed answers of the two listers. *)
Definition exampleStore (templates : list v3.RoleTemplate * option error)
    (project : option v3.Project * option error) : @projectStore unit unit :=
  {| embedded := {| Store_Create := fun _ _ data => (data, None);
                    Store_Update := fun _ _ data _ => (data, None);
                    Store_Delete := fun _ _ _ => (None, None) |};
     projectLister := fun _ _ => project;
     roleTemplateLister := fun _ => templates |}.

(** Quantities that are plain decimal numbers. *)
Fixpoint digits (acc : Z) (s : string) : option Z :=
  match s with
  | EmptyString => Some acc
  | String c s' =>
      let n := Z.of_N (utf8.byte c) in
      if (48 <=? n)%Z && (n <=? 57)%Z then digits (10 * acc + (n - 48))%Z s' else None
  end.

Definition plainQuantity (s : string) : option Z :=
  match s with
  | EmptyString => None
  | String _ _ => digits 0 s
  end.

(** A quota object with one limit on pods. *)
Definition podsQuota (quantity : string) : value :=
  VMap {["limit" := VMap {["pods" := VString quantity]}]}.

Definition quotaPayload (project namespace : string) : payload :=
  Some {[ "resourceQuota" := podsQuota project;
          "namespaceDefaultResourceQuota" := podsQuota namespace ]}.

(** A project that carries the system-project label. *)
Definition systemProject : v3.Project :=
  v3.mkProject {[ systemProjectLabel := "true" ]}.

(** Errors of collaborators. *)
Definition parseError : error := ErrOther "ParseError".

(** A payload whose [annotations] the caller filled in, the reserved key
    among them. *)
Definition forgedPayload : gmap string value :=
  {[ "name" := VString "billing";
     "annotations" := VMap {[ roleTemplatesRequired := VString "forged";
                              "team" := VString "payments" ]} ]}.

(** ** Running the methods *)

Section Running.

Context {APIContext Schema : Type}.
Implicit Types (s : @projectStore APIContext Schema) (im : Imports).
Implicit Types (data : payload) (tr : list (@event APIContext Schema)).

Lemma index_present data field :
  (let '(v, ok) := index data field in if is_nil v then false else ok)
  = present data field.
Proof.
  unfold index, present. destruct (data ≫= _) as [v|]; [by destruct v | done].
Qed.

(** The presence test at the head of the validation. *)
Lemma validate_unpaired im (apiContext : APIContext) (schema : Schema) data id :
  present data quotaField ≠ present data namespaceQuotaField →
  validateResourceQuota im apiContext schema data id
  = Some (missingRequired (absentField data)).
Proof.
  intros Hne. unfold validateResourceQuota, absentField.
  pose proof (index_present data quotaField) as Hq.
  pose proof (index_present data namespaceQuotaField) as Hn.
  destruct (index data quotaField) as [quotaO quotaOk].
  destruct (index data namespaceQuotaField) as [nsQuotaO namespaceQuotaOk].
  simpl in Hq, Hn. rewrite Hq, Hn.
  destruct (present data quotaField), (present data namespaceQuotaField);
    simpl; first [congruence | reflexivity].
Qed.

(** What the annotation step does to the trace, whatever it returns. *)
Lemma createProjectAnnotation_trace s tr :
  ∃ r, createProjectAnnotation s tr = (Returns r, (tr ++ [EvRoleTemplateList ""])%list)
       ∧ (∀ e, (roleTemplateLister s "").2 = Some e → r = ("", Some e))
       ∧ ((roleTemplateLister s "").2 = None → r.2 = None).
Proof.
  unfold createProjectAnnotation, mbind, M_bind, call. simpl.
  destruct (roleTemplateLister s "") as [rt [e|]]; simpl.
  - eexists. split; [reflexivity|]. split; [by intros ? [= ->] | done].
  - eexists. split; [reflexivity|]. split; [done | done].
Qed.

(** A create that the validation refuses. *)
Lemma Create_refused s im (apiContext : APIContext) (schema : Schema) data tr e :
  validateResourceQuota im apiContext schema data "" = Some e →
  ∃ e', Create s im apiContext schema data tr
        = (Returns ((None, Some e'), data), (tr ++ [EvRoleTemplateList ""])%list)
        ∧ ((roleTemplateLister s "").2 = None → e' = e)
        ∧ (∀ e0, (roleTemplateLister s "").2 = Some e0 → e' = e0).
Proof.
  intros Hv.
  destruct (createProjectAnnotation_trace s tr) as ([a err] & Hrun & Herr & Hok).
  unfold Create, mbind, M_bind. rewrite Hrun. simpl.
  destruct err as [e0|].
  - exists e0. split; [done|]. split.
    + intros Hnone. specialize (Hok Hnone). done.
    + intros e1 He1. specialize (Herr _ He1). congruence.
  - rewrite Hv. exists e. split; [done|]. split; [done|].
    intros e1 He1. specialize (Herr _ He1). congruence.
Qed.

Lemma Update_refused s im (apiContext : APIContext) (schema : Schema) data id tr e :
  validateResourceQuota im apiContext schema data id = Some e →
  Update s im apiContext schema data id tr = (Returns ((None, Some e), data), tr).
Proof. intros Hv. unfold Update. by rewrite Hv. Qed.

Lemma Update_passed s im (apiContext : APIContext) (schema : Schema) data id tr :
  validateResourceQuota im apiContext schema data id = None →
  Update s im apiContext schema data id tr
  = (Returns (Store_Update (embedded s) apiContext schema data id, data),
     (tr ++ [EvStoreUpdate apiContext schema data id])%list).
Proof. intros Hv. unfold Update. rewrite Hv. reflexivity. Qed.

End Running.

(** ** The quota validation *)

Section Validation.

Context {APIContext Schema : Type}.
Implicit Types (s : @projectStore APIContext Schema) (im : Imports).
Implicit Types (data : payload) (tr : list (@event APIContext Schema)).

Lemma absentField_absent data :
  present data quotaField ≠ present data namespaceQuotaField →
  present data (absentField data) = false.
Proof.
  unfold absentField.
  destruct (present data quotaField) eqn:Hq;
    destruct (present data namespaceQuotaField) eqn:Hn; congruence.
Qed.

(** C1: when exactly one of [resourceQuota] and
    [namespaceDefaultResourceQuota] is present (a nil value counting as
    absent), the validation fails with a MissingRequired error on the
    absent field, on update and on create alike, and the wrapped store is
    not called: an update leaves the trace as it was, a create adds only
    the listing of the role templates. *)
Theorem unpaired_quota_is_missing_required
    s im (apiContext : APIContext) (schema : Schema) data id tr :
  present data quotaField ≠ present data namespaceQuotaField →
  present data (absentField data) = false
  ∧ validateResourceQuota im apiContext schema data id
    = Some (missingRequired (absentField data))
  ∧ Update s im apiContext schema data id tr
    = (Returns ((None, Some (missingRequired (absentField data))), data), tr)
  ∧ ∃ e, Create s im apiContext schema data tr
         = (Returns ((None, Some e), data), (tr ++ [EvRoleTemplateList ""])%list)
         ∧ ((roleTemplateLister s "").2 = None → e = missingRequired (absentField data)).
Proof.
  intros Hne. split; [by apply absentField_absent|].
  pose proof (validate_unpaired im apiContext schema data id Hne) as Hv.
  split; [done|]. split; [by apply Update_refused|].
  destruct (Create_refused s im apiContext schema data tr _
              (validate_unpaired im apiContext schema data "" Hne))
    as (e & Hrun & Hok & _).
  exists e. by split.
Qed.

(** The value read for a field that is not present is nil. *)
Lemma index_absent data field :
  present data field = false → is_nil (index data field).1 = true.
Proof.
  unfold present, index. destruct (data ≫= _) as [v|]; simpl; [|done].
  by destruct (is_nil v).
Qed.

Lemma is_nil_VNil v : is_nil v = true → v = VNil.
Proof. by destruct v. Qed.

(** The validation once both fields are present: the conversions and the
    checker decide. *)
Lemma validate_paired im (apiContext : APIContext) (schema : Schema) data id
    nsQuota projectQuota projectQuotaLimit nsQuotaLimit :
  present data quotaField = present data namespaceQuotaField →
  ToObj_namespaceQuota im (index data namespaceQuotaField).1 = (nsQuota, None) →
  ToObj_projectQuota im (index data quotaField).1 = (projectQuota, None) →
  limitToLimit im (mgmtclient.Limit projectQuota) = (projectQuotaLimit, None) →
  limitToLimit im (mgmtclient.ns_Limit nsQuota) = (nsQuotaLimit, None) →
  validateResourceQuota im apiContext schema data id
  = let '(isFit, msg, err) := IsQuotaFit im nsQuotaLimit [] projectQuotaLimit in
    if bool_decide (err ≠ None) || isFit then err
    else Some (ErrAPI (httperror.NewFieldAPIError httperror.MaxLimitExceeded
                         namespaceQuotaField
                         ("exceeds " ++ quotaField ++ " on fields: " ++ msg))).
Proof.
  intros Heq Hns Hp Hpl Hnl. unfold validateResourceQuota.
  pose proof (index_present data quotaField) as Hq.
  pose proof (index_present data namespaceQuotaField) as Hn.
  destruct (index data quotaField) as [quotaO quotaOk].
  destruct (index data namespaceQuotaField) as [nsQuotaO namespaceQuotaOk].
  simpl in *. rewrite Hq, Hn, Heq.
  rewrite Bool.eqb_reflx. simpl. rewrite Hns, Hp, Hpl, Hnl. reflexivity.
Qed.

(** C4: with both quotas present and converted, a checker that reports
    "does not fit" without an error makes the validation fail with a
    MaxLimitExceeded error on the field [namespaceDefaultResourceQuota],
    whose message carries the checker's list of resources. *)
Theorem unfit_quota_is_max_limit_exceeded
    im (apiContext : APIContext) (schema : Schema) data id
    nsQuota projectQuota projectQuotaLimit nsQuotaLimit msg :
  present data quotaField = true →
  present data namespaceQuotaField = true →
  ToObj_namespaceQuota im (index data namespaceQuotaField).1 = (nsQuota, None) →
  ToObj_projectQuota im (index data quotaField).1 = (projectQuota, None) →
  limitToLimit im (mgmtclient.Limit projectQuota) = (projectQuotaLimit, None) →
  limitToLimit im (mgmtclient.ns_Limit nsQuota) = (nsQuotaLimit, None) →
  IsQuotaFit im nsQuotaLimit [] projectQuotaLimit = (false, msg, None) →
  ∃ e, validateResourceQuota im apiContext schema data id = Some (ErrAPI e)
       ∧ httperror.Code e = httperror.MaxLimitExceeded
       ∧ httperror.FieldName e = "namespaceDefaultResourceQuota"
       ∧ httperror.Message e = "exceeds resourceQuota on fields: " ++ msg.
Proof.
  intros Hq Hn Hns Hp Hpl Hnl Hfit.
  erewrite validate_paired by (first [congruence | eassumption]).
  rewrite Hfit. simpl. eexists. split; [reflexivity|]. by repeat split.
Qed.

(** C9: the validation does not look at the id: any two ids, the empty
    one of a create among them, give the same result. *)
Theorem validation_ignores_id
    im (apiContext : APIContext) (schema : Schema) data (id1 id2 : string) :
  validateResourceQuota im apiContext schema data id1
  = validateResourceQuota im apiContext schema data id2.
Proof. reflexivity. Qed.

(** C10: a create that fails changes nothing: when the annotation step
    or the validation returns an error, Create returns that error and a
    nil map, the payload is as it was, and the events added to the trace
    hold no call of the wrapped store. *)
Theorem Create_failure_is_atomic
    s im (apiContext : APIContext) (schema : Schema) data tr annotation err tr' e :
  createProjectAnnotation s tr = (Returns (annotation, err), tr') →
  err = Some e
  ∨ (err = None ∧ validateResourceQuota im apiContext schema data "" = Some e) →
  Create s im apiContext schema data tr = (Returns ((None, Some e), data), tr')
  ∧ storeCalls tr' = storeCalls tr.
Proof.
  intros Hrun Hfail.
  destruct (createProjectAnnotation_trace s tr) as (r & Hrun' & _).
  rewrite Hrun in Hrun'. injection Hrun' as Hr Htr.
  split.
  - unfold Create, mbind, M_bind. rewrite Hrun. simpl.
    destruct Hfail as [-> | [-> Hv]]; [done|]. by rewrite Hv.
  - rewrite Htr. unfold storeCalls. rewrite List.filter_app. simpl.
    apply app_nil_r.
Qed.

End Validation.

(** ** Splitting an id *)

Section Splitting.

Local Abbreviation colon := (String ":"%char EmptyString).

Lemma HasPrefix_colon s :
  strings.HasPrefix s colon
  = match s with String c _ => Ascii.eqb c ":"%char | EmptyString => false end.
Proof.
  destruct s as [|c s]; [done|]. simpl.
  destruct (Ascii.eqb c ":"%char); [by destruct s | done].
Qed.

Lemma Index_eq s sep :
  strings.Index s sep
  = if strings.HasPrefix s sep then Some 0
    else match s with
         | EmptyString => None
         | String _ s' => S <$> strings.Index s' sep
         end.
Proof. by destruct s. Qed.

(** Where [Index] finds the first colon: nothing before it is one. *)
Lemma Index_colon s :
  match strings.Index s colon with
  | None => noColon s
  | Some m =>
      noColon (strings.take m s)
      ∧ s = strings.take m s ++ colon ++ strings.drop (S m) s
      ∧ String.length (strings.drop (S m) s) < String.length s
  end.
Proof.
  unfold noColon. induction s as [|c s IH]; [done|].
  rewrite (Index_eq (String c s)), HasPrefix_colon.
  destruct (Ascii.eqb c ":"%char) eqn:Hc.
  - apply Ascii.eqb_eq in Hc as ->. split; [done|]. split; [done|].
    simpl. destruct s; simpl; lia.
  - destruct (strings.Index s colon) as [m|] eqn:Hi.
    + destruct IH as (Hno & Heq & Hlen).
      change (S <$> Some m) with (Some (S m)). cbv iota beta.
      change (strings.take (S m) (String c s)) with (String c (strings.take m s)).
      change (strings.drop (S (S m)) (String c s)) with (strings.drop (S m) s).
      split; [|split].
      * rewrite Index_eq, HasPrefix_colon, Hc. by rewrite Hno.
      * change (String c s
                = String c (strings.take m s ++ colon ++ strings.drop (S m) s)).
        f_equal. exact Heq.
      * simpl in *. lia.
    + done.
Qed.

Lemma genSplit_cons fuel s sep :
  ∃ part parts, strings.genSplit fuel s sep = part :: parts.
Proof.
  destruct fuel; simpl; [by eauto|]. destruct (strings.Index s sep); by eauto.
Qed.



Lemma Split_noColon s :
  noColon s → strings.Split s colon = [s].
Proof.
  unfold noColon, strings.Split. intros Hno.
  destruct (String.length s); simpl; by rewrite ?Hno.
Qed.

(** The two segments the store reads always exist. *)
Lemma Split_segments id :
  strings.Split id colon !! 0 = Some (clusterPart id)
  ∧ strings.Split id colon !! (length (strings.Split id colon) - 1)
    = Some (projectPart id).
Proof.
  unfold clusterPart, projectPart.
  destruct (genSplit_cons (String.length id) id colon) as (part & parts & Hs).
  unfold strings.Split. rewrite Hs. split; [done|].
  rewrite Nat.sub_1_r, <- last_lookup. by destruct (last (part :: parts)) eqn:Hl;
    [|apply last_None in Hl].
Qed.

End Splitting.

(** ** Delete *)

Section Deleting.

Context {APIContext Schema : Type}.
Implicit Types (s : @projectStore APIContext Schema) (im : Imports).
Implicit Types (data : payload) (tr : list (@event APIContext Schema)).

(** Delete, run: one lookup with the two segments of the id, and then
    what the project found says. *)
Lemma Delete_run s (apiContext : APIContext) (schema : Schema) id tr :
  Delete s apiContext schema id tr
  = let lookup := EvProjectGet (clusterPart id) (projectPart id) in
    match projectLister s (clusterPart id) (projectPart id) with
    | (_, Some e) => (Returns (None, Some e), (tr ++ [lookup])%list)
    | (None, None) => (Panics, (tr ++ [lookup])%list)
    | (Some proj, None) =>
        if decide (index_string (v3.Labels proj) systemProjectLabel = "true")
        then (Returns (None, Some systemProjectError), (tr ++ [lookup])%list)
        else (Returns (Store_Delete (embedded s) apiContext schema id),
              ((tr ++ [lookup]) ++ [EvStoreDelete apiContext schema id])%list)
    end.
Proof.
  destruct (Split_segments id) as [Hc Hp].
  unfold Delete, at_index, mbind, M_bind, call.
  change (strings.Split id (String ":"%char EmptyString)) with (strings.Split id ":") in *.
  rewrite Hc. simpl. rewrite Hp. simpl.
  destruct (projectLister s (clusterPart id) (projectPart id)) as [[proj|] [e|]];
    simpl; try reflexivity.
  by destruct (decide _).
Qed.

(** C2: a delete whose project resolves and carries the system-project
    label with the value ["true"] is refused with the MethodNotAllowed
    error and its fixed message, and the wrapped store is not called;
    with any other value of the label, or none, the delete is handed to
    the wrapped store and its answer returned. *)
Theorem Delete_guards_system_projects
    s (apiContext : APIContext) (schema : Schema) id tr proj :
  projectLister s (clusterPart id) (projectPart id) = (Some proj, None) →
  (v3.Labels proj !! systemProjectLabel = Some "true" →
     Delete s apiContext schema id tr
     = (Returns (None, Some (ErrAPI {| httperror.Code := httperror.MethodNotAllowed;
                                       httperror.Message := "System Project cannot be deleted";
                                       httperror.FieldName := "" |})),
        (tr ++ [EvProjectGet (clusterPart id) (projectPart id)])%list)
     ∧ storeCalls (tr ++ [EvProjectGet (clusterPart id) (projectPart id)])%list
       = storeCalls tr)
  ∧ (v3.Labels proj !! systemProjectLabel ≠ Some "true" →
     Delete s apiContext schema id tr
     = (Returns (Store_Delete (embedded s) apiContext schema id),
        (tr ++ [EvProjectGet (clusterPart id) (projectPart id);
                EvStoreDelete apiContext schema id])%list)).
Proof.
  intros Hget. rewrite Delete_run, Hget. cbv zeta. split.
  - intros Hlabel. unfold index_string. rewrite Hlabel. simpl.
    split; [reflexivity|]. unfold storeCalls. rewrite List.filter_app. simpl.
    apply app_nil_r.
  - intros Hlabel. destruct (decide _) as [Heq|_].
    + exfalso. apply Hlabel. unfold index_string in Heq.
      destruct (v3.Labels proj !! systemProjectLabel) as [l|]; simpl in Heq;
        [by f_equal | discriminate].
    + by rewrite <- app_assoc.
Qed.


End Deleting.

(** ** Errors of the collaborators, and the pair of absent quotas *)

Section Collaborators.

Context {APIContext Schema : Type}.
Implicit Types (s : @projectStore APIContext Schema) (im : Imports).
Implicit Types (data : payload) (tr : list (@event APIContext Schema)).

(** C7: the errors of the collaborators come back as they are: the
    checker's error is the validation's result, whatever else the checker
    reports; the error of the project lookup is what Delete returns, and
    the error of the role-template listing what Create returns, each with
    a nil map and without a call of the wrapped store. *)
Theorem collaborator_errors_are_propagated
    s im (apiContext : APIContext) (schema : Schema) data id tr e :
  (∀ nsQuota projectQuota projectQuotaLimit nsQuotaLimit isFit msg,
     present data quotaField = present data namespaceQuotaField →
     ToObj_namespaceQuota im (index data namespaceQuotaField).1 = (nsQuota, None) →
     ToObj_projectQuota im (index data quotaField).1 = (projectQuota, None) →
     limitToLimit im (mgmtclient.Limit projectQuota) = (projectQuotaLimit, None) →
     limitToLimit im (mgmtclient.ns_Limit nsQuota) = (nsQuotaLimit, None) →
     IsQuotaFit im nsQuotaLimit [] projectQuotaLimit = (isFit, msg, Some e) →
     validateResourceQuota im apiContext schema data id = Some e)
  ∧ (∀ proj,
       projectLister s (clusterPart id) (projectPart id) = (proj, Some e) →
       Delete s apiContext schema id tr
       = (Returns (None, Some e),
          (tr ++ [EvProjectGet (clusterPart id) (projectPart id)])%list))
  ∧ (∀ rt,
       roleTemplateLister s "" = (rt, Some e) →
       Create s im apiContext schema data tr
       = (Returns ((None, Some e), data), (tr ++ [EvRoleTemplateList ""])%list)).
Proof.
  split; [|split].
  - intros nsQuota projectQuota projectQuotaLimit nsQuotaLimit isFit msg
      Heq Hns Hp Hpl Hnl Hfit.
    erewrite validate_paired by eassumption. rewrite Hfit. reflexivity.
  - intros proj Hget. rewrite Delete_run, Hget. by destruct proj.
  - intros rt Hlist.
    unfold Create, createProjectAnnotation, mbind, M_bind, call.
    simpl. by rewrite Hlist.
Qed.

(** The checker of the specification on two empty limit sets. *)
Lemma IsQuotaFit_empty ParseQuantity :
  resourcequota.IsQuotaFit ParseQuantity ∅ [] ∅ = (true, "", None).
Proof.
  unfold resourcequota.IsQuotaFit.
  change ([] ++ [∅])%list with [(∅ : v3.ResourceQuotaLimit)].
  cbn [resourcequota.chain].
  unfold resourcequota.violations, v3.ResourceQuotaLimit.
  by rewrite map_to_list_empty.
Qed.

Lemma validate_unset ParseQuantity (apiContext : APIContext) (schema : Schema) data id :
  present data quotaField = false →
  present data namespaceQuotaField = false →
  validateResourceQuota (imports ParseQuantity) apiContext schema data id = None.
Proof.
  intros Hq Hn.
  pose proof (is_nil_VNil _ (index_absent _ _ Hq)) as Hq0.
  pose proof (is_nil_VNil _ (index_absent _ _ Hn)) as Hn0.
  erewrite validate_paired.
  - simpl. rewrite IsQuotaFit_empty. reflexivity.
  - congruence.
  - rewrite Hn0. reflexivity.
  - rewrite Hq0. reflexivity.
  - reflexivity.
  - reflexivity.
Qed.

(** C6: with both quota fields absent, or nil, the validation passes,
    and the write goes to the wrapped store: an update as it came, a
    create once the role templates are listed and the annotation is put
    into the payload. *)
Theorem absent_quotas_pass
    ParseQuantity s (apiContext : APIContext) (schema : Schema) data id tr :
  present data quotaField = false →
  present data namespaceQuotaField = false →
  validateResourceQuota (imports ParseQuantity) apiContext schema data id = None
  ∧ Update s (imports ParseQuantity) apiContext schema data id tr
    = (Returns (Store_Update (embedded s) apiContext schema data id, data),
       (tr ++ [EvStoreUpdate apiContext schema data id])%list)
  ∧ (∀ annotation tr',
       createProjectAnnotation s tr = (Returns (annotation, None), tr') →
       let data' := values.PutValue data (VString annotation)
                      ["annotations"; roleTemplatesRequired] in
       Create s (imports ParseQuantity) apiContext schema data tr
       = (Returns (Store_Create (embedded s) apiContext schema data', data'),
          (tr' ++ [EvStoreCreate apiContext schema data'])%list)).
Proof.
  intros Hq Hn.
  split; [by apply validate_unset|].
  split; [by apply Update_passed, validate_unset|].
  intros annotation tr' Hrun. cbv zeta.
  unfold Create, mbind, M_bind. rewrite Hrun. simpl.
  rewrite (validate_unset ParseQuantity apiContext schema data "" Hq Hn).
  reflexivity.
Qed.

End Collaborators.

(** ** Reading back an encoded string *)

Section Strings.

Lemma allBytes_complete (b : ascii) : b ∈ allBytes.
Proof.
  unfold allBytes. apply list_elem_of_fmap. exists (nat_of_ascii b).
  split; [by rewrite ascii_nat_embedding|].
  apply list_elem_of_In, in_seq. pose proof (nat_ascii_bounded b). lia.
Qed.

(** A property checked on every byte holds of every byte. *)
Lemma forall_bytes (P : ascii → bool) :
  forallb P allBytes = true → ∀ b, P b = true.
Proof.
  intros H b. rewrite forallb_forall in H. apply H, list_elem_of_In, allBytes_complete.
Qed.

Lemma app_cons a s t : String a s ++ t = String a (s ++ t).
Proof. reflexivity. Qed.

Lemma app_assoc s t u : (s ++ t) ++ u = s ++ (t ++ u).
Proof. induction s as [|a s IH]; [done|]. rewrite !app_cons. by f_equal. Qed.

Lemma passes_app c1 o1 c2 o2 :
  passes c1 o1 → passes c2 o2 → passes (c1 ++ c2) (o1 ++ o2).
Proof.
  intros H1 H2 t. rewrite app_assoc, H1, H2.
  destruct (jsontext.readString t) as [[str rest]|]; [|reflexivity].
  change (Some ((o1 ++ (o2 ++ str)), rest) = Some (((o1 ++ o2) ++ str), rest)).
  by rewrite app_assoc.
Qed.

Lemma passes_nil : passes "" "".
Proof.
  intros t. change ("" ++ t) with t.
  destruct (jsontext.readString t) as [[??]|]; reflexivity.
Qed.

(** A byte that is written as it is, is read as it is. *)
Lemma passes_safe b :
  (utf8.byte b <? utf8.RuneSelf)%N = true → json.htmlSafeSet b = true →
  passes (String b "") (String b "").
Proof.
  intros Hlow Hsafe t.
  destruct b as [[] [] [] [] [] [] [] []]; vm_compute in Hlow, Hsafe;
    try discriminate; reflexivity.
Qed.

(** An escaped byte is read as the byte. *)
Lemma passes_escape b :
  (utf8.byte b <? utf8.RuneSelf)%N = true → json.htmlSafeSet b = false →
  passes (json.escape b) (String b "").
Proof.
  intros Hlow Hsafe t.
  destruct b as [[] [] [] [] [] [] [] []]; vm_compute in Hlow, Hsafe;
    try discriminate; reflexivity.
Qed.

(** A byte of a sequence of several is read as it is. *)
Lemma passes_high b :
  (utf8.byte b <? utf8.RuneSelf)%N = false → passes (String b "") (String b "").
Proof.
  intros Hhigh t.
  destruct b as [[] [] [] [] [] [] [] []]; vm_compute in Hhigh;
    try discriminate; reflexivity.
Qed.

Lemma passes_replacement :
  passes (String json.backslash "ufffd") replacement.
Proof. intros t. reflexivity. Qed.

End Strings.

(** ** Sequences of several bytes *)

Section Sequences.

Local Open Scope N_scope.

(** The second byte of a sequence is not below [utf8.RuneSelf]. *)
Lemma second_high :
  ∀ b0 b1 sz lo hi,
    utf8.first (utf8.byte b0) = Some (sz, lo, hi) →
    utf8.outside lo hi b1 = false →
    (utf8.byte b1 <? utf8.RuneSelf) = false.
Proof.
  assert (forallb (fun b0 => forallb (fun b1 =>
            match utf8.first (utf8.byte b0) with
            | Some (_, lo, hi) =>
                utf8.outside lo hi b1 || negb (utf8.byte b1 <? utf8.RuneSelf)
            | None => true
            end) allBytes) allBytes = true) as Hall by (vm_compute; reflexivity).
  intros b0 b1 sz lo hi Hfirst Hin.
  pose proof (forall_bytes _ (forall_bytes _ Hall b0) b1) as H.
  cbv beta in H. rewrite Hfirst, Hin in H. by destruct (utf8.byte b1 <? utf8.RuneSelf).
Qed.

Lemma continuation_high b :
  utf8.outside 0x80 0xBF b = false → (utf8.byte b <? utf8.RuneSelf) = false.
Proof.
  intros Hin.
  destruct b as [[] [] [] [] [] [] [] []]; vm_compute in Hin |- *;
    try discriminate; reflexivity.
Qed.

(** A rune of two bytes is neither U+2028 nor U+2029. *)
Lemma rune2_no_separator :
  ∀ b0 b1 sz lo hi,
    utf8.first (utf8.byte b0) = Some (sz, lo, hi) →
    (sz <=? 2)%nat = true →
    let c := N.lor (N.shiftl (utf8.lead 0x1F b0) 6) (utf8.tail b1) in
    (c =? 0x2028) || (c =? 0x2029) = false.
Proof.
  assert (forallb (fun b0 => forallb (fun b1 =>
            match utf8.first (utf8.byte b0) with
            | Some (sz, lo, hi) =>
                negb (sz <=? 2)%nat
                || (let c := N.lor (N.shiftl (utf8.lead 0x1F b0) 6) (utf8.tail b1) in
                    negb ((c =? 0x2028) || (c =? 0x2029)))
            | None => true
            end) allBytes) allBytes = true) as Hall by (vm_compute; reflexivity).
  intros b0 b1 sz lo hi Hfirst Hsz c.
  pose proof (forall_bytes _ (forall_bytes _ Hall b0) b1) as H.
  cbv beta in H. rewrite Hfirst, Hsz in H. cbv zeta in H. simpl in H.
  by apply negb_true_iff in H.
Qed.

(** A rune of three bytes that is U+2028 or U+2029 has the bytes the
    reader gives for its escape. *)
Lemma rune3_separator :
  ∀ b0 b1 b2 sz lo hi,
    utf8.first (utf8.byte b0) = Some (sz, lo, hi) →
    (sz <=? 2)%nat = false → (sz <=? 3)%nat = true →
    utf8.outside lo hi b1 = false →
    utf8.outside 0x80 0xBF b2 = false →
    let c := N.lor (N.shiftl (utf8.lead 0x0F b0) 12)
               (N.lor (N.shiftl (utf8.tail b1) 6) (utf8.tail b2)) in
    (c =? 0x2028) || (c =? 0x2029) = true →
    passes (String json.backslash "u202" ++ String (json.hex (N.land c 0xF)) "")
           (String b0 (String b1 (String b2 ""))).
Proof.
  assert (forallb (fun b0 =>
            match utf8.first (utf8.byte b0) with
            | Some (sz, lo, hi) =>
                if (sz <=? 2)%nat then true
                else if (sz <=? 3)%nat then
                  forallb (fun b1 =>
                    if utf8.outside lo hi b1 then true
                    else forallb (fun b2 =>
                      if utf8.outside 0x80 0xBF b2 then true
                      else
                        let c := N.lor (N.shiftl (utf8.lead 0x0F b0) 12)
                                   (N.lor (N.shiftl (utf8.tail b1) 6) (utf8.tail b2)) in
                        if (c =? 0x2028) || (c =? 0x2029)
                        then Ascii.eqb b0 "226" && Ascii.eqb b1 "128"
                             && (Ascii.eqb b2 "168" && (c =? 0x2028)
                                 || Ascii.eqb b2 "169" && (c =? 0x2029))
                        else true)
                      allBytes)
                    allBytes
                else true
            | None => true
            end) allBytes = true) as Hall by (vm_compute; reflexivity).
  intros b0 b1 b2 sz lo hi Hfirst Hsz2 Hsz3 Hin1 Hin2 c Hc.
  pose proof (forall_bytes _ Hall b0) as H0. cbv beta in H0.
  rewrite Hfirst, Hsz2, Hsz3 in H0.
  pose proof (forall_bytes _ H0 b1) as H1. cbv beta in H1.
  rewrite Hin1 in H1.
  pose proof (forall_bytes _ H1 b2) as H2. cbv beta zeta in H2.
  rewrite Hin2 in H2. fold c in H2. rewrite Hc in H2.
  apply andb_true_iff in H2 as [H01 H2]. apply andb_true_iff in H01 as [Hb0 Hb1].
  apply Ascii.eqb_eq in Hb0 as ->. apply Ascii.eqb_eq in Hb1 as ->.
  apply orb_true_iff in H2 as [H2|H2]; apply andb_true_iff in H2 as [Hb2 Hcv];
    apply Ascii.eqb_eq in Hb2 as ->; apply N.eqb_eq in Hcv; rewrite Hcv;
    intros t; reflexivity.
Qed.

(** A rune of four bytes is neither U+2028 nor U+2029. *)
Lemma rune4_no_separator :
  ∀ b0 b1 b2 b3 sz lo hi,
    utf8.first (utf8.byte b0) = Some (sz, lo, hi) →
    (sz <=? 3)%nat = false →
    utf8.outside lo hi b1 = false →
    utf8.outside 0x80 0xBF b2 = false →
    utf8.outside 0x80 0xBF b3 = false →
    let c := N.lor (N.shiftl (utf8.lead 0x07 b0) 18)
               (N.lor (N.shiftl (utf8.tail b1) 12)
                  (N.lor (N.shiftl (utf8.tail b2) 6) (utf8.tail b3))) in
    (c =? 0x2028) || (c =? 0x2029) = false.
Proof.
  assert (forallb (fun b0 =>
            match utf8.first (utf8.byte b0) with
            | Some (sz, lo, hi) =>
                if (sz <=? 3)%nat then true
                else forallb (fun b1 =>
                  if utf8.outside lo hi b1 then true
                  else forallb (fun b2 =>
                    if utf8.outside 0x80 0xBF b2 then true
                    else forallb (fun b3 =>
                      if utf8.outside 0x80 0xBF b3 then true
                      else
                        let c := N.lor (N.shiftl (utf8.lead 0x07 b0) 18)
                                   (N.lor (N.shiftl (utf8.tail b1) 12)
                                      (N.lor (N.shiftl (utf8.tail b2) 6) (utf8.tail b3))) in
                        negb ((c =? 0x2028) || (c =? 0x2029)))
                      allBytes)
                    allBytes)
                  allBytes
            | None => true
            end) allBytes = true) as Hall by (vm_compute; reflexivity).
  intros b0 b1 b2 b3 sz lo hi Hfirst Hsz3 Hin1 Hin2 Hin3 c.
  pose proof (forall_bytes _ Hall b0) as H0. cbv beta in H0.
  rewrite Hfirst, Hsz3 in H0.
  pose proof (forall_bytes _ H0 b1) as H1. cbv beta in H1.
  rewrite Hin1 in H1.
  pose proof (forall_bytes _ H1 b2) as H2. cbv beta in H2.
  rewrite Hin2 in H2.
  pose proof (forall_bytes _ H2 b3) as H3. cbv beta zeta in H3.
  rewrite Hin3 in H3.
  by apply negb_true_iff in H3.
Qed.

End Sequences.

(** ** One round of the encoder, read back *)

Section Rounds.

(** What one round on a byte at or above [utf8.RuneSelf] writes is read
    back as what [scrubLoop] keeps of it, and the round moves on by at
    least one byte and at most the bytes there are. *)
Lemma round_high b s1 :
  (utf8.byte b <? utf8.RuneSelf)%N = false →
  let s := String b s1 in
  let '(c, size) := utf8.DecodeRuneInString s in
  (1 ≤ size ≤ String.length s)%nat
  ∧ passes
      (if (c =? utf8.RuneError)%N && (size =? 1)%nat
       then String json.backslash "ufffd"
       else if (c =? 0x2028)%N || (c =? 0x2029)%N
       then String json.backslash "u202" ++ String (json.hex (N.land c 0xF)) ""
       else strings.take size s)
      (if (c =? utf8.RuneError)%N && (size =? 1)%nat
       then replacement else strings.take size s).
Proof.
  intros Hhigh s. subst s. unfold utf8.DecodeRuneInString. rewrite Hhigh.
  assert (Hbad : (1 ≤ 1 ≤ String.length (String b s1))%nat
                 ∧ passes (String json.backslash "ufffd") replacement).
  { split; [simpl; lia | apply passes_replacement]. }
  destruct (utf8.first (utf8.byte b)) as [[[sz lo] hi]|] eqn:Hfirst; [|exact Hbad].
  destruct (String.length (String b s1) <? sz)%nat eqn:Hlen; [exact Hbad|].
  destruct s1 as [|b1 s2]; [exact Hbad|].
  destruct (utf8.outside lo hi b1) eqn:Hin1; [exact Hbad|].
  pose proof (second_high _ _ _ _ _ Hfirst Hin1) as Hb1.
  destruct (sz <=? 2)%nat eqn:Hsz2.
  { pose proof (rune2_no_separator b b1 _ _ _ Hfirst Hsz2) as Hsep. cbv zeta in Hsep.
    rewrite Hsep, andb_false_r. split; [simpl; lia|].
    apply (passes_app (String b "") (String b "") (String b1 "") (String b1 ""));
      by apply passes_high. }
  destruct s2 as [|b2 s3]; [exact Hbad|].
  destruct (utf8.outside 128 191 b2) eqn:Hin2; [exact Hbad|].
  pose proof (continuation_high _ Hin2) as Hb2.
  destruct (sz <=? 3)%nat eqn:Hsz3.
  { rewrite andb_false_r. split; [simpl; lia|].
    destruct ((_ =? 8232)%N || (_ =? 8233)%N) eqn:Hsep.
    - by apply (rune3_separator b b1 b2 _ _ _ Hfirst Hsz2 Hsz3 Hin1 Hin2).
    - apply (passes_app (String b "") (String b "")
               (String b1 (String b2 "")) (String b1 (String b2 "")));
        [by apply passes_high|].
      apply (passes_app (String b1 "") (String b1 "") (String b2 "") (String b2 ""));
        by apply passes_high. }
  destruct s3 as [|b3 s4]; [exact Hbad|].
  destruct (utf8.outside 128 191 b3) eqn:Hin3; [exact Hbad|].
  pose proof (continuation_high _ Hin3) as Hb3.
  pose proof (rune4_no_separator b b1 b2 b3 _ _ _ Hfirst Hsz3 Hin1 Hin2 Hin3) as Hsep.
  cbv zeta in Hsep. rewrite Hsep, andb_false_r. split; [simpl; lia|].
  apply (passes_app (String b "") (String b "")
           (String b1 (String b2 (String b3 ""))) (String b1 (String b2 (String b3 ""))));
    [by apply passes_high|].
  apply (passes_app (String b1 "") (String b1 "")
           (String b2 (String b3 "")) (String b2 (String b3 "")));
    [by apply passes_high|].
  apply (passes_app (String b2 "") (String b2 "") (String b3 "") (String b3 ""));
    by apply passes_high.
Qed.

End Rounds.

(** ** An encoded string, read back *)

Section EncodedStrings.

Lemma length_drop n s :
  String.length (strings.drop n s) = (String.length s - n)%nat.
Proof.
  revert s. induction n as [|n IH]; intros [|c s]; simpl; try done.
Qed.

Lemma app_nil_r s : s ++ "" = s.
Proof. induction s as [|a s IH]; [done|]. rewrite app_cons. by f_equal. Qed.

Lemma length_app s t :
  String.length (s ++ t) = (String.length s + String.length t)%nat.
Proof. induction s as [|a s IH]; [done|]. rewrite app_cons. simpl. by f_equal. Qed.

Lemma stringLoop_nil fuel : json.stringLoop fuel "" = "".
Proof. by destruct fuel. Qed.

Lemma scrubLoop_nil fuel : scrubLoop fuel "" = "".
Proof. by destruct fuel. Qed.

(** The loop of the encoder writes what the reader takes for the
    scrubbed string. *)
Lemma stringLoop_passes fuel s :
  (String.length s ≤ fuel)%nat →
  passes (json.stringLoop fuel s) (scrubLoop fuel s).
Proof.
  revert s. induction fuel as [|fuel IH]; intros s Hlen.
  { destruct s; [apply passes_nil | simpl in Hlen; lia]. }
  destruct s as [|b s1]; [apply passes_nil|].
  cbn [json.stringLoop scrubLoop].
  destruct (utf8.byte b <? utf8.RuneSelf)%N eqn:Hlow.
  - assert (utf8.DecodeRuneInString (String b s1) = (utf8.byte b, 1%nat)) as ->.
    { unfold utf8.DecodeRuneInString. by rewrite Hlow. }
    assert ((utf8.byte b =? utf8.RuneError)%N = false) as ->.
    { apply N.eqb_neq. apply N.ltb_lt in Hlow. unfold utf8.RuneSelf, utf8.RuneError in *. lia. }
    cbn [andb strings.drop strings.take].
    apply (passes_app _ (String b "") _ _).
    + destruct (json.htmlSafeSet b) eqn:Hsafe;
        [by apply passes_safe | by apply passes_escape].
    + apply IH. simpl in Hlen. lia.
  - pose proof (round_high b s1 Hlow) as Hround. cbv zeta in Hround.
    destruct (utf8.DecodeRuneInString (String b s1)) as [c size].
    destruct Hround as [Hsize Hpass].
    assert (passes (json.stringLoop fuel (strings.drop size (String b s1)))
                   (scrubLoop fuel (strings.drop size (String b s1)))) as Hrest.
    { apply IH. rewrite length_drop. simpl in Hlen, Hsize |- *. lia. }
    destruct ((c =? utf8.RuneError)%N && (size =? 1)%nat).
    + by apply passes_app.
    + destruct ((c =? 8232)%N || (c =? 8233)%N).
      * pose proof (passes_app _ _ _ _ Hpass Hrest) as H.
        rewrite app_assoc in H. exact H.
      * by apply passes_app.
Qed.

(** An encoded string is read back as the scrubbed string, and the
    reader stops behind its closing quote. *)
Lemma readString_encodeString s rest :
  jsontext.readString (json.stringLoop (String.length s) s ++ String json.quote rest)
  = Some (scrub s, rest).
Proof.
  rewrite (stringLoop_passes (String.length s) s (le_n _)).
  change (jsontext.readString (String json.quote rest)) with (Some ("", rest)).
  simpl. unfold scrub. by rewrite app_nil_r.
Qed.

Lemma readValue_encodeString fuel s rest :
  jsontext.readValue (S fuel) (json.encodeString s ++ rest)
  = Some (jsontext.JString (scrub s), rest).
Proof.
  unfold json.encodeString. rewrite app_cons, app_assoc, app_cons.
  change (String json.quote "" ++ rest) with (String json.quote ("" ++ rest)).
  change ("" ++ rest) with rest.
  cbn [jsontext.readValue jsontext.skipSpace].
  change (jsontext.isSpace json.quote) with false. cbv iota.
  change (Ascii.eqb json.quote json.quote) with true. cbv iota.
  by rewrite readString_encodeString.
Qed.

(** A string of bytes below [utf8.RuneSelf] comes back as it is. *)
Lemma scrubLoop_ASCII fuel s :
  (String.length s ≤ fuel)%nat → isASCII s = true → scrubLoop fuel s = s.
Proof.
  revert s. induction fuel as [|fuel IH]; intros [|b s] Hlen Hascii; try done.
  { simpl in Hlen. lia. }
  simpl in Hascii. apply andb_true_iff in Hascii as [Hlow Hascii].
  cbn [scrubLoop].
  assert (utf8.DecodeRuneInString (String b s) = (utf8.byte b, 1%nat)) as ->.
  { unfold utf8.DecodeRuneInString. by rewrite Hlow. }
  assert ((utf8.byte b =? utf8.RuneError)%N = false) as ->.
  { apply N.eqb_neq. apply N.ltb_lt in Hlow. unfold utf8.RuneSelf, utf8.RuneError in *. lia. }
  cbn [andb strings.drop strings.take]. rewrite app_cons.
  change ("" ++ scrubLoop fuel s) with (scrubLoop fuel s).
  rewrite IH; [done | simpl in Hlen; lia | done].
Qed.

Lemma scrub_ASCII s : isASCII s = true → scrub s = s.
Proof. by apply scrubLoop_ASCII. Qed.

End EncodedStrings.

(** ** The annotation *)

Section Annotation.

Lemma annotate_annoMapOf names role :
  annotate (annoMapOf names) role
  = annoMapOf (names ++ (if v3.ProjectCreatorDefault role && negb (v3.Locked role)
                         then [v3.Name role] else []))%list.
Proof.
  unfold annotate.
  destruct (v3.ProjectCreatorDefault role && negb (v3.Locked role)).
  - destruct names as [|n names]; simpl.
    + unfold index_slice. rewrite lookup_empty. simpl. by rewrite insert_empty.
    + unfold index_slice. rewrite lookup_singleton_eq. simpl.
      by rewrite insert_singleton_eq.
  - by rewrite List.app_nil_r.
Qed.

(** The loop collects the creator defaults in the order of the listing. *)
Lemma fold_annotate rt names :
  fold_left annotate rt (annoMapOf names) = annoMapOf (names ++ creatorDefaults rt)%list.
Proof.
  revert names. induction rt as [|role rt IH]; intros names.
  - by rewrite List.app_nil_r.
  - cbn [fold_left]. rewrite annotate_annoMapOf, IH. f_equal.
    rewrite <- List.app_assoc. f_equal. unfold creatorDefaults. simpl.
    by destruct (v3.ProjectCreatorDefault role && negb (v3.Locked role)).
Qed.

Lemma encodeMap_annoMapOf names :
  json.encodeMap (annoMapOf names)
  = match names with
    | [] => "{}"
    | _ :: _ => "{" ++ json.encodeMember ("required", Some names) ++ "}"
    end.
Proof.
  unfold json.encodeMap. destruct names as [|n names]; simpl annoMapOf.
  - rewrite map_to_list_empty. reflexivity.
  - rewrite map_to_list_singleton. reflexivity.
Qed.

End Annotation.

(** ** The annotation, read back *)

Section ReadingBack.

Lemma readValue_S fuel s :
  jsontext.readValue (S fuel) s
  = match jsontext.skipSpace s with
    | EmptyString => None
    | String c s' =>
        if Ascii.eqb c json.quote then
          '(str, rest) ← jsontext.readString s'; Some (jsontext.JString str, rest)
        else if Ascii.eqb c "["%char then
          '(vs, rest) ← jsontext.readElements (jsontext.readValue fuel) fuel s';
          Some (jsontext.JArray vs, rest)
        else if Ascii.eqb c "{"%char then
          '(ms, rest) ← jsontext.readObject (jsontext.readValue fuel) fuel s';
          Some (jsontext.JObject ms, rest)
        else if strings.HasPrefix s "null" then Some (jsontext.JNull, strings.drop 4 s)
        else if strings.HasPrefix s "true" then Some (jsontext.JBool true, strings.drop 4 s)
        else if strings.HasPrefix s "false" then Some (jsontext.JBool false, strings.drop 5 s)
        else None
    end.
Proof. reflexivity. Qed.

Lemma encodeString_quote s : ∃ t, json.encodeString s = String json.quote t.
Proof. by eexists. Qed.

Lemma skipSpace_encodeString s rest :
  jsontext.skipSpace (json.encodeString s ++ rest) = json.encodeString s ++ rest.
Proof. reflexivity. Qed.

Lemma length_encodeString s : (2 ≤ String.length (json.encodeString s))%nat.
Proof.
  unfold json.encodeString. cbn [String.length]. rewrite length_app. simpl. lia.
Qed.

Lemma length_join l :
  (length l ≤ String.length (json.join (json.encodeString <$> l)))%nat.
Proof.
  induction l as [|n [|n2 l] IH]; [done| |].
  - simpl. pose proof (length_encodeString n). lia.
  - change (json.join (json.encodeString <$> n :: n2 :: l))
      with (json.encodeString n ++ "," ++ json.join (json.encodeString <$> n2 :: l)).
    rewrite !length_app. pose proof (length_encodeString n).
    simpl in IH |- *. lia.
Qed.

(** The elements of an array of encoded strings. *)
Lemma readMore_strings f n l fuel rest :
  (length (n :: l) ≤ fuel)%nat →
  jsontext.readMore (jsontext.readValue (S f)) fuel
    (json.join (json.encodeString <$> n :: l) ++ "]" ++ rest)
  = Some (jsontext.JString <$> (scrub <$> n :: l), rest).
Proof.
  revert n fuel. induction l as [|n2 l IH]; intros n fuel Hlen.
  - destruct fuel as [|fuel]; [simpl in Hlen; lia|].
    cbn [fmap list_fmap json.join jsontext.readMore].
    rewrite readValue_encodeString. reflexivity.
  - destruct fuel as [|fuel]; [simpl in Hlen; lia|].
    change (json.join (json.encodeString <$> n :: n2 :: l))
      with (json.encodeString n ++ "," ++ json.join (json.encodeString <$> n2 :: l)).
    rewrite !app_assoc. cbn [jsontext.readMore].
    rewrite readValue_encodeString. cbn [mbind option_bind].
    change (jsontext.skipSpace ("," ++ json.join (json.encodeString <$> n2 :: l) ++ "]" ++ rest))
      with (String ","%char (json.join (json.encodeString <$> n2 :: l) ++ "]" ++ rest)).
    cbv iota. change (Ascii.eqb "," ",") with true. cbv iota.
    rewrite IH; [reflexivity | simpl in Hlen |- *; lia].
Qed.

(** A slice that is not nil, encoded and read. *)
Lemma readValue_encodeSlice f l rest :
  (length l ≤ S f)%nat →
  jsontext.readValue (S (S f)) (json.encodeSlice (Some l) ++ rest)
  = Some (jsontext.JArray (jsontext.JString <$> (scrub <$> l)), rest).
Proof.
  intros Hlen. unfold json.encodeSlice. rewrite !app_assoc.
  destruct l as [|n l]; [reflexivity|].
  destruct (encodeString_quote n) as [t Hq].
  assert (∃ t', json.join (json.encodeString <$> n :: l) ++ "]" ++ rest
                = String json.quote t') as [t' Ht'].
  { destruct l; cbn [fmap list_fmap json.join]; rewrite ?app_assoc, Hq; by eexists. }
  change ("[" ++ json.join (json.encodeString <$> n :: l) ++ "]" ++ rest)
    with (String "["%char (json.join (json.encodeString <$> n :: l) ++ "]" ++ rest)).
  rewrite readValue_S. cbn [jsontext.skipSpace].
  change (jsontext.isSpace "[") with false. cbv iota.
  change (Ascii.eqb "[" json.quote) with false.
  change (Ascii.eqb "[" "[") with true. cbv iota.
  assert (∀ rv fuel,
            jsontext.readElements rv fuel
              (json.join (json.encodeString <$> n :: l) ++ "]" ++ rest)
            = jsontext.readMore rv fuel
                (json.join (json.encodeString <$> n :: l) ++ "]" ++ rest)) as ->.
  { intros rv fuel. unfold jsontext.readElements. rewrite Ht'. reflexivity. }
  rewrite readMore_strings by done. reflexivity.
Qed.

Lemma readValue_brace F t :
  jsontext.readValue (S F) (String "{"%char t)
  = '(ms, rest) ← jsontext.readObject (jsontext.readValue F) F t;
    Some (jsontext.JObject ms, rest).
Proof. reflexivity. Qed.

Lemma readObject_member rv F t :
  jsontext.readObject rv (S F) (String json.quote t)
  = '(key, s1) ← jsontext.readString t;
    match jsontext.skipSpace s1 with
    | String colon s2 =>
        if Ascii.eqb colon ":"%char then
          '(v, s3) ← rv s2;
          match jsontext.skipSpace s3 with
          | String c s4 =>
              if Ascii.eqb c ","%char then
                '(ms, s5) ← jsontext.readMembers rv F s4; Some ((key, v) :: ms, s5)
              else if Ascii.eqb c "}"%char then Some ([(key, v)], s4)
              else None
          | EmptyString => None
          end
        else None
    | EmptyString => None
    end.
Proof. reflexivity. Qed.

(** An object of one member that holds a slice, encoded and read. *)
Lemma readValue_member f key l rest :
  (length l ≤ S f)%nat →
  jsontext.readValue (S (S (S f)))
    ("{" ++ json.encodeMember (key, Some l) ++ "}" ++ rest)
  = Some (jsontext.JObject
            [(scrub key, jsontext.JArray (jsontext.JString <$> (scrub <$> l)))], rest).
Proof.
  intros Hlen.
  assert ("{" ++ json.encodeMember (key, Some l) ++ "}" ++ rest
          = String "{"%char (String json.quote
              (json.stringLoop (String.length key) key
               ++ String json.quote
                    (String ":"%char (json.encodeSlice (Some l) ++ "}" ++ rest)))))
    as ->.
  { unfold json.encodeMember, json.encodeString. cbn [fst snd].
    rewrite ?app_cons, ?app_assoc, ?app_cons. reflexivity. }
  rewrite readValue_brace, readObject_member, readString_encodeString.
  cbn [mbind option_bind].
  change (jsontext.skipSpace (String ":"%char ?x)) with (String ":"%char x).
  cbv iota. change (Ascii.eqb ":" ":") with true. cbv iota.
  rewrite (readValue_encodeSlice f l ("}" ++ rest) Hlen).
  reflexivity.
Qed.

End ReadingBack.


(** ** What the annotation decodes to *)

Section Decoding.

Context {APIContext Schema : Type}.
Implicit Types (s : @projectStore APIContext Schema) (im : Imports).
Implicit Types (data : payload) (tr : list (@event APIContext Schema)).

(** The text [json.Marshal] writes for the map of the loop is read as
    the value that map stands for. *)
Lemma Unmarshal_annoMapOf names :
  jsontext.Unmarshal (json.encodeMap (annoMapOf names)) = Some (annoTreeOf names).
Proof.
  rewrite encodeMap_annoMapOf. destruct names as [|n l]; [reflexivity|].
  unfold jsontext.Unmarshal.
  assert (S (S (length (n :: l)))
          ≤ String.length ("{" ++ json.encodeMember ("required", Some (n :: l)) ++ "}"))%nat
    as Hbig.
  { unfold json.encodeMember, json.encodeSlice. cbn [fst snd].
    rewrite !length_app. pose proof (length_join (n :: l)) as Hj.
    change (String.length "{") with 1%nat. change (String.length "}") with 1%nat.
    lia. }
  destruct (String.length ("{" ++ json.encodeMember ("required", Some (n :: l)) ++ "}"))
    as [|[|f]]; [lia | lia |].
  assert (length (n :: l) ≤ S f)%nat as Hlen by lia.
  rewrite <- (app_nil_r ("{" ++ _)), !app_assoc.
  rewrite (readValue_member f "required" (n :: l) "" Hlen). reflexivity.
Qed.

(** What [createProjectAnnotation] returns when the listing succeeds. *)
Lemma createProjectAnnotation_listed s rt tr :
  roleTemplateLister s "" = (rt, None) →
  createProjectAnnotation s tr
  = (Returns (json.encodeMap (annoMapOf (creatorDefaults rt)), None),
     (tr ++ [EvRoleTemplateList ""])%list).
Proof.
  intros Hlist. pose proof (fold_annotate rt []) as Hfold.
  change (annoMapOf []) with (∅ : gmap string json.slice) in Hfold.
  change ([] ++ creatorDefaults rt)%list with (creatorDefaults rt) in Hfold.
  unfold createProjectAnnotation, mbind, M_bind, call.
  rewrite Hlist, Hfold. reflexivity.
Qed.

Lemma listed_annoTreeOf names :
  jsontext.listed "required" (annoTreeOf names) = scrub <$> names.
Proof.
  destruct names as [|n l]; [reflexivity|].
  unfold annoTreeOf, jsontext.listed.
  cbn [list_find fst snd]. rewrite decide_True by done.
  cbn [fmap option_fmap option_map prod_map fst snd].
  unfold jsontext.stringsOf.
  rewrite (mapM_fmap_Some _ jsontext.JString (list_fmap string string scrub (n :: l)));
    done.
Qed.

Lemma scrub_names names :
  Forall (fun n => isASCII n = true) names → scrub <$> names = names.
Proof.
  induction 1 as [|n l Hn _ IH]; [done|]. by rewrite fmap_cons, scrub_ASCII, IH.
Qed.

(** C3: the annotation a create computes decodes to an object whose
    only possible key is ["required"]; the names listed under that key
    are those of the role templates that are creator defaults and not
    locked, in the order of the listing (a name of bytes below 0x80, as
    Kubernetes names are, comes back as it is; in any other name, bytes
    that are no valid UTF-8 come back as U+FFFD).  For [owner], [editor]
    and the locked [legacy] it decodes to
    [{"required": ["owner", "editor"]}]. *)
Theorem annotation_lists_creator_defaults s rt tr :
  roleTemplateLister s "" = (rt, None) →
  ∃ annotation t,
    createProjectAnnotation s tr
    = (Returns (annotation, None), (tr ++ [EvRoleTemplateList ""])%list)
    ∧ jsontext.Unmarshal annotation = Some t
    ∧ (∀ keys key, jsontext.keys t = Some keys → key ∈ keys → key = "required")
    ∧ jsontext.listed "required" t = scrub <$> creatorDefaults rt
    ∧ (Forall (fun n => isASCII n = true) (creatorDefaults rt) →
       jsontext.listed "required" t = creatorDefaults rt)
    ∧ (rt = [owner; editor; legacy] →
       t = jsontext.JObject
             [("required", jsontext.JArray [jsontext.JString "owner";
                                            jsontext.JString "editor"])]).
Proof.
  intros Hlist. eexists _, (annoTreeOf (creatorDefaults rt)).
  split; [by apply createProjectAnnotation_listed|].
  split; [apply Unmarshal_annoMapOf|].
  split; [|split; [apply listed_annoTreeOf|split]].
  - intros keys key Hkeys Hin. destruct (creatorDefaults rt); simpl in Hkeys.
    + injection Hkeys as <-. by apply elem_of_nil in Hin.
    + injection Hkeys as <-. by apply list_elem_of_singleton in Hin.
  - intros Hascii. rewrite listed_annoTreeOf. by apply scrub_names.
  - intros ->. reflexivity.
Qed.

End Decoding.

(** ** The annotation in the payload *)

Section Injection.

Context {APIContext Schema : Type}.
Implicit Types (s : @projectStore APIContext Schema) (im : Imports).
Implicit Types (data : payload) (tr : list (@event APIContext Schema)).

(** Where [values.PutValue] finds no entry [annotations], or a map, the
    annotation can be read back. *)
Lemma creatorRoleBindings_annotated (m : gmap string value) annotation :
  (∀ v, m !! "annotations" = Some v → ∃ a, v = VMap a) →
  creatorRoleBindings (annotated (Some m) annotation) = Some (VString annotation).
Proof.
  intros Hmap. unfold creatorRoleBindings, annotated, values.PutValue.
  cbn [fmap option_fmap option_map mbind option_bind values.putValue].
  destruct (m !! "annotations") as [v|] eqn:Hm.
  - destruct (Hmap v eq_refl) as [a ->].
    rewrite lookup_insert_eq. cbn [mbind option_bind]. by rewrite lookup_insert_eq.
  - rewrite lookup_insert_eq. cbn [mbind option_bind]. by rewrite lookup_insert_eq.
Qed.

(** A create that gets past the listing and the validation. *)
Lemma Create_passed s im (apiContext : APIContext) (schema : Schema) data tr rt :
  roleTemplateLister s "" = (rt, None) →
  validateResourceQuota im apiContext schema data "" = None →
  Create s im apiContext schema data tr
  = let data' := annotated data (json.encodeMap (annoMapOf (creatorDefaults rt))) in
    (Returns (Store_Create (embedded s) apiContext schema data', data'),
     (tr ++ [EvRoleTemplateList ""; EvStoreCreate apiContext schema data'])%list).
Proof.
  intros Hlist Hv. unfold Create, mbind, M_bind.
  rewrite (createProjectAnnotation_listed s rt tr Hlist), Hv.
  cbv zeta. unfold call, annotated. by rewrite <- List.app_assoc.
Qed.

Lemma requiredOnly_annoTreeOf n names : requiredOnly (annoTreeOf (n :: names)).
Proof.
  eexists _, (scrub <$> n :: names). split; [reflexivity|].
  unfold jsontext.stringsOf. by rewrite mapM_fmap_Some.
Qed.

(** C5, as the code has it: the annotation of a create that gets past
    the listing and the validation is what the payload handed to the
    wrapped store holds under [annotations] and the reserved key (given
    a payload map whose [annotations], if any, is a map).  It is the
    text of a JSON object: with at least one role template that is a
    creator default and not locked, an object with exactly the key
    ["required"], over the list of the names; with none, the empty
    object, without a key. *)
Theorem injected_annotation_format
    s im (apiContext : APIContext) (schema : Schema) data tr rt :
  roleTemplateLister s "" = (rt, None) →
  validateResourceQuota im apiContext schema data "" = None →
  ∃ annotation t,
    Create s im apiContext schema data tr
    = (Returns (Store_Create (embedded s) apiContext schema (annotated data annotation),
                annotated data annotation),
       (tr ++ [EvRoleTemplateList "";
               EvStoreCreate apiContext schema (annotated data annotation)])%list)
    ∧ (∀ m, data = Some m →
            (∀ v, m !! "annotations" = Some v → ∃ a, v = VMap a) →
            creatorRoleBindings (annotated data annotation) = Some (VString annotation))
    ∧ jsontext.Unmarshal annotation = Some t
    ∧ jsontext.listed "required" t = scrub <$> creatorDefaults rt
    ∧ (creatorDefaults rt ≠ [] → requiredOnly t)
    ∧ (creatorDefaults rt = [] → annotation = "{}" ∧ t = jsontext.JObject []).
Proof.
  intros Hlist Hv.
  exists (json.encodeMap (annoMapOf (creatorDefaults rt))), (annoTreeOf (creatorDefaults rt)).
  split; [by apply Create_passed|].
  split; [intros m -> Hmap; by apply creatorRoleBindings_annotated|].
  split; [apply Unmarshal_annoMapOf|].
  split; [apply listed_annoTreeOf|].
  split.
  - destruct (creatorDefaults rt) as [|n names]; [done|].
    intros _. apply requiredOnly_annoTreeOf.
  - intros ->. split; reflexivity.
Qed.

(** C5, as it is written, fails where no role template qualifies: with
    only the locked [legacy] listed, the create succeeds, and the
    annotation in the payload is [{}], an object without the key
    ["required"]. *)
Lemma locked_templates_give_empty_object :
  let s := exampleStore ([legacy], None) (None, None) in
  let data' := Some {[ "annotations" := VMap {[ roleTemplatesRequired := VString "{}" ]} ]} in
  Create s (imports plainQuantity) () () (Some ∅) []
  = (Returns ((data', None), data'), [EvRoleTemplateList ""; EvStoreCreate () () data'])
  ∧ creatorRoleBindings data' = Some (VString "{}")
  ∧ jsontext.Unmarshal "{}" = Some (jsontext.JObject [])
  ∧ jsontext.keys (jsontext.JObject []) = Some []
  ∧ ¬ requiredOnly (jsontext.JObject []).
Proof.
  cbv zeta. split; [by vm_compute|].
  split; [by vm_compute|]. split; [by vm_compute|]. split; [done|].
  intros (v & names & Heq & _). discriminate Heq.
Qed.

End Injection.

(** ** The theorems at the examples *)

Section Examples.

Local Abbreviation idle := (exampleStore ([], None) (None, None)).

(** A payload with a project quota only: the namespace default is
    missing, on update and on create. *)
Lemma project_quota_alone_is_refused :
  let data := Some {[ quotaField := podsQuota "5" ]} in
  present data quotaField ≠ present data namespaceQuotaField
  ∧ validateResourceQuota (imports plainQuantity) () () data "c-1:p-1"
    = Some (missingRequired namespaceQuotaField)
  ∧ Update idle (imports plainQuantity) () () data "c-1:p-1" []
    = (Returns ((None, Some (missingRequired namespaceQuotaField)), data), []).
Proof.
  cbv zeta.
  assert (present (Some {[ quotaField := podsQuota "5" ]}) quotaField
          ≠ present (Some {[ quotaField := podsQuota "5" ]}) namespaceQuotaField) as Hne
    by (vm_compute; discriminate).
  split; [exact Hne|].
  destruct (unpaired_quota_is_missing_required idle (imports plainQuantity) () ()
              (Some {[ quotaField := podsQuota "5" ]}) "c-1:p-1" [] Hne)
    as (_ & Hv & Hu & _).
  split; [exact Hv | exact Hu].
Defined.

(** The delete of a system project. *)
Lemma system_project_is_kept :
  Delete (exampleStore ([], None) (Some systemProject, None)) () () "c-1:p-1" []
  = (Returns (None, Some systemProjectError), [EvProjectGet "c-1" "p-1"]).
Proof.
  destruct (Delete_guards_system_projects
              (exampleStore ([], None) (Some systemProject, None)) () () "c-1:p-1" []
              systemProject eq_refl) as [Hsystem _].
  destruct (Hsystem eq_refl) as [Hrun _]. exact Hrun.
Defined.

(** The annotation for [owner], [editor] and the locked [legacy]. *)
Lemma owner_and_editor_are_required :
  ∃ annotation,
    createProjectAnnotation (exampleStore ([owner; editor; legacy], None) (None, None)) []
    = (Returns (annotation, None), [EvRoleTemplateList ""])
    ∧ jsontext.Unmarshal annotation
      = Some (jsontext.JObject
                [("required", jsontext.JArray [jsontext.JString "owner";
                                               jsontext.JString "editor"])])
    ∧ jsontext.listed "required"
        (jsontext.JObject
           [("required", jsontext.JArray [jsontext.JString "owner";
                                          jsontext.JString "editor"])])
      = ["owner"; "editor"].
Proof.
  destruct (annotation_lists_creator_defaults
              (exampleStore ([owner; editor; legacy], None) (None, None))
              [owner; editor; legacy] [] eq_refl)
    as (annotation & t & Hrun & Hread & _ & Hlisted & _ & Hexample).
  exists annotation. rewrite (Hexample eq_refl) in Hread, Hlisted.
  split; [exact Hrun|]. split; [exact Hread | exact Hlisted].
Defined.

(** A namespace default of ten pods in a project of five. *)
Lemma ten_pods_exceed_five :
  ∃ e, validateResourceQuota (imports plainQuantity) () () (quotaPayload "5" "10") ""
       = Some (ErrAPI e)
       ∧ httperror.Code e = httperror.MaxLimitExceeded
       ∧ httperror.FieldName e = "namespaceDefaultResourceQuota"
       ∧ httperror.Message e = "exceeds resourceQuota on fields: pods".
Proof.
  refine (unfit_quota_is_max_limit_exceeded (imports plainQuantity) () ()
            (quotaPayload "5" "10") ""
            (mgmtclient.mkNamespaceResourceQuota (Some {[ "pods" := "10" ]}))
            (mgmtclient.mkProjectResourceQuota (Some {[ "pods" := "5" ]}) None)
            {[ "pods" := "5" ]} {[ "pods" := "10" ]} "pods" _ _ _ _ _ _ _);
    vm_compute; reflexivity.
Defined.

(** A create over the three templates and an empty payload. *)
Lemma create_injects_required :
  ∃ annotation t data',
    Create (exampleStore ([owner; editor; legacy], None) (None, None))
      (imports plainQuantity) () () (Some ∅) []
    = (Returns ((data', None), data'),
       [EvRoleTemplateList ""; EvStoreCreate () () data'])
    ∧ creatorRoleBindings data' = Some (VString annotation)
    ∧ jsontext.Unmarshal annotation = Some t
    ∧ requiredOnly t.
Proof.
  assert (validateResourceQuota (imports plainQuantity) () () (Some ∅) "" = None) as Hv
    by (vm_compute; reflexivity).
  destruct (injected_annotation_format
              (exampleStore ([owner; editor; legacy], None) (None, None))
              (imports plainQuantity) () () (Some ∅) [] [owner; editor; legacy]
              eq_refl Hv)
    as (annotation & t & Hrun & Hat & Hread & _ & Hone & _).
  exists annotation, t, (annotated (Some ∅) annotation).
  split; [exact Hrun|]. split; [|split; [exact Hread|]].
  - apply (Hat ∅ eq_refl). intros v Hv0. vm_compute in Hv0. discriminate Hv0.
  - apply Hone. vm_compute. discriminate.
Defined.

(** An update that only renames the project. *)
Lemma rename_is_passed_on :
  let data := Some {[ "name" := VString "billing" ]} in
  validateResourceQuota (imports plainQuantity) () () data "c-1:p-1" = None
  ∧ Update idle (imports plainQuantity) () () data "c-1:p-1" []
    = (Returns ((data, None), data), [EvStoreUpdate () () data "c-1:p-1"]).
Proof.
  cbv zeta.
  destruct (absent_quotas_pass plainQuantity idle () ()
              (Some {[ "name" := VString "billing" ]}) "c-1:p-1" [])
    as (Hv & Hu & _); [vm_compute; reflexivity | vm_compute; reflexivity |].
  split; [exact Hv | exact Hu].
Defined.

(** A quantity the checker cannot parse, a lookup and a listing that
    fail. *)
Lemma parse_error_comes_back :
  let s := exampleStore ([], Some parseError) (None, Some parseError) in
  validateResourceQuota (imports plainQuantity) () () (quotaPayload "5" "many") "c-1:p-1"
  = Some parseError
  ∧ Delete s () () "c-1:p-1" []
    = (Returns (None, Some parseError), [EvProjectGet "c-1" "p-1"])
  ∧ Create s (imports plainQuantity) () () (quotaPayload "5" "many") []
    = (Returns ((None, Some parseError), quotaPayload "5" "many"),
       [EvRoleTemplateList ""]).
Proof.
  cbv zeta.
  destruct (collaborator_errors_are_propagated
              (exampleStore ([], Some parseError) (None, Some parseError))
              (imports plainQuantity) () () (quotaPayload "5" "many") "c-1:p-1" []
              parseError)
    as (Hchecker & Hlookup & Hlisting).
  split; [|split].
  - apply (Hchecker (mgmtclient.mkNamespaceResourceQuota (Some {[ "pods" := "many" ]}))
             (mgmtclient.mkProjectResourceQuota (Some {[ "pods" := "5" ]}) None)
             {[ "pods" := "5" ]} {[ "pods" := "many" ]} false "");
      vm_compute; reflexivity.
  - exact (Hlookup None eq_refl).
  - exact (Hlisting [] eq_refl).
Defined.


(** A create with a project quota alone: refused after the listing, with
    the payload as it came. *)
Lemma refused_create_changes_nothing :
  let data := Some {[ quotaField := podsQuota "5" ]} in
  Create (exampleStore ([owner], None) (None, None)) (imports plainQuantity) () () data []
  = (Returns ((None, Some (missingRequired namespaceQuotaField)), data),
     [EvRoleTemplateList ""])
  ∧ storeCalls [@EvRoleTemplateList unit unit ""] = [].
Proof.
  cbv zeta.
  refine (Create_failure_is_atomic (exampleStore ([owner], None) (None, None))
            (imports plainQuantity) () () (Some {[ quotaField := podsQuota "5" ]}) []
            _ None [EvRoleTemplateList ""] (missingRequired namespaceQuotaField) _ _).
  - reflexivity.
  - right. split; [reflexivity | vm_compute; reflexivity].
Defined.

End Examples.

(** ** The segments of a joined id *)

Section Segments.

Context {APIContext Schema : Type}.
Implicit Types (s : @projectStore APIContext Schema).
Implicit Types (tr : list (@event APIContext Schema)).

Local Abbreviation colon := (String ":"%char EmptyString).

(** The cuts do not depend on the bound of the loop, once it is the length
    of the string. *)
Lemma genSplit_fuel f1 f2 str :
  (String.length str ≤ f1)%nat → (String.length str ≤ f2)%nat →
  strings.genSplit f1 str colon = strings.genSplit f2 str colon.
Proof.
  revert f2 str. induction f1 as [|f1 IH]; intros f2 str H1 H2.
  - destruct str; [|simpl in H1; lia]. by destruct f2.
  - destruct f2 as [|f2].
    + destruct str; [|simpl in H2; lia]. reflexivity.
    + cbn [strings.genSplit]. pose proof (Index_colon str) as Hi.
      destruct (strings.Index str colon) as [m|]; [|done].
      destruct Hi as (_ & _ & Hshort).
      replace (m + String.length colon)%nat with (S m) by (simpl; lia).
      f_equal. apply IH; lia.
Qed.

Lemma noColon_cons a str :
  noColon (String a str) → Ascii.eqb a ":"%char = false ∧ noColon str.
Proof.
  unfold noColon. rewrite (Index_eq (String a str)), HasPrefix_colon.
  destruct (Ascii.eqb a ":"%char); [done|].
  destruct (strings.Index str colon); [done|]. by split.
Qed.

(** The first colon behind a segment without one. *)
Lemma Index_segment seg rest :
  noColon seg → strings.Index (seg ++ colon ++ rest) colon = Some (String.length seg).
Proof.
  induction seg as [|a seg IH]; intros Hno.
  - change ("" ++ colon ++ rest) with (String ":"%char rest).
    rewrite Index_eq, HasPrefix_colon. reflexivity.
  - apply noColon_cons in Hno as [Ha Hno]. rewrite app_cons.
    rewrite Index_eq, HasPrefix_colon, Ha, (IH Hno). reflexivity.
Qed.

Lemma take_segment seg rest : strings.take (String.length seg) (seg ++ rest) = seg.
Proof.
  induction seg as [|a seg IH]; [by destruct rest|].
  rewrite app_cons. simpl. by f_equal.
Qed.

Lemma drop_segment seg rest :
  strings.drop (S (String.length seg)) (seg ++ colon ++ rest) = rest.
Proof.
  induction seg as [|a seg IH]; [done|]. rewrite app_cons. exact IH.
Qed.

(** Splitting cuts off a first segment that holds no colon. *)
Lemma Split_segment seg rest :
  noColon seg →
  strings.Split (seg ++ colon ++ rest) colon = seg :: strings.Split rest colon.
Proof.
  intros Hno. unfold strings.Split. rewrite length_app.
  change (String.length (colon ++ rest)) with (S (String.length rest)).
  rewrite Nat.add_succ_r. cbn [strings.genSplit].
  rewrite (Index_segment seg rest Hno).
  replace (String.length seg + String.length colon)%nat with (S (String.length seg))
    by (simpl; lia).
  rewrite take_segment, drop_segment. f_equal.
  apply genSplit_fuel; lia.
Qed.

(** Splitting undoes joining, for segments without a colon. *)
Lemma Split_Join seg segs :
  Forall noColon (seg :: segs) →
  strings.Split (strings.Join (seg :: segs) colon) colon = seg :: segs.
Proof.
  revert seg. induction segs as [|seg' segs IH]; intros seg Hall.
  - apply Split_noColon. by inversion Hall.
  - inversion Hall as [|? ? Hseg Hrest]; subst.
    change (strings.Join (seg :: seg' :: segs) colon)
      with (seg ++ colon ++ strings.Join (seg' :: segs) colon).
    rewrite (Split_segment _ _ Hseg). f_equal. by apply IH.
Qed.

(** An id of several segments is looked up by the outer two, whatever lies
    between them: the cluster is the first segment and the project the
    last, and the lookup comes first. *)
Theorem Delete_reads_outer_segments
    s (apiContext : APIContext) (schema : Schema) cluster middle project tr :
  Forall noColon (cluster :: middle ++ [project]) →
  let id := strings.Join (cluster :: middle ++ [project]) ":" in
  strings.Split id ":" = (cluster :: middle ++ [project])%list
  ∧ clusterPart id = cluster
  ∧ projectPart id = project
  ∧ ∃ r more, Delete s apiContext schema id tr
              = (r, (tr ++ EvProjectGet cluster project :: more)%list).
Proof.
  intros Hall. cbv zeta.
  pose proof (Split_Join cluster (middle ++ [project]) Hall) as Hsplit.
  assert (clusterPart (strings.Join (cluster :: middle ++ [project]) colon) = cluster)
    as Hcluster by (unfold clusterPart; by rewrite Hsplit).
  assert (projectPart (strings.Join (cluster :: middle ++ [project]) colon) = project)
    as Hproject.
  { unfold projectPart. rewrite Hsplit.
    change (cluster :: middle ++ [project])%list
      with ((cluster :: middle) ++ [project])%list.
    by rewrite last_snoc. }
  split; [exact Hsplit|]. split; [exact Hcluster|]. split; [exact Hproject|].
  rewrite Delete_run, Hcluster, Hproject. cbv zeta.
  destruct (projectLister s cluster project) as [[proj|] [e|]];
    try by eexists _, [].
  destruct (decide _); [by eexists _, []|].
  eexists _, [_]. by rewrite <- List.app_assoc.
Qed.

(** A delete never reads a segment that is not there: the one way for it
    to panic is a lookup that answers with neither a project nor an error,
    and then the wrapped store has not been called. *)
Theorem Delete_panics_only_without_project
    s (apiContext : APIContext) (schema : Schema) id tr :
  (∀ tr', Delete s apiContext schema id tr = (Panics, tr') →
          projectLister s (clusterPart id) (projectPart id) = (None, None)
          ∧ tr' = (tr ++ [EvProjectGet (clusterPart id) (projectPart id)])%list)
  ∧ (projectLister s (clusterPart id) (projectPart id) = (None, None) →
     Delete s apiContext schema id tr
     = (Panics, (tr ++ [EvProjectGet (clusterPart id) (projectPart id)])%list)).
Proof.
  rewrite Delete_run. cbv zeta.
  destruct (projectLister s (clusterPart id) (projectPart id)) as [[proj|] [e|]].
  - split; [intros tr' [=] | intros [=]].
  - split; [|intros [=]]. intros tr'. by destruct (decide _).
  - split; [intros tr' [=] | intros [=]].
  - split; [|done]. by intros tr' [= <-].
Qed.

End Segments.

(** ** What the validation reads, and in which order *)

Section Order.

Context {APIContext Schema : Type}.
Implicit Types (s : @projectStore APIContext Schema) (im : Imports).
Implicit Types (data : payload) (tr : list (@event APIContext Schema)).

(** The flag of a field, once nil counts as missing, is decided by the
    value read. *)
Lemma index_flag data field :
  (let '(v, ok) := index data field in if is_nil v then false else ok)
  = negb (is_nil (index data field).1).
Proof.
  unfold index. destruct (data ≫= _) as [v|]; simpl; [by destruct (is_nil v) | done].
Qed.

(** The validation reads the payload at the two quota fields and nowhere
    else, and a field that is missing reads like one that holds nil: two
    payloads with the same two values get the same answer, whatever else
    they hold. *)
Theorem validation_reads_two_fields
    im (apiContext : APIContext) (schema : Schema) data1 data2 id1 id2 :
  (index data1 quotaField).1 = (index data2 quotaField).1 →
  (index data1 namespaceQuotaField).1 = (index data2 namespaceQuotaField).1 →
  validateResourceQuota im apiContext schema data1 id1
  = validateResourceQuota im apiContext schema data2 id2.
Proof.
  intros Hq Hn. unfold validateResourceQuota.
  pose proof (index_flag data1 quotaField) as F1.
  pose proof (index_flag data1 namespaceQuotaField) as G1.
  pose proof (index_flag data2 quotaField) as F2.
  pose proof (index_flag data2 namespaceQuotaField) as G2.
  destruct (index data1 quotaField) as [q1 qok1].
  destruct (index data1 namespaceQuotaField) as [n1 nok1].
  destruct (index data2 quotaField) as [q2 qok2].
  destruct (index data2 namespaceQuotaField) as [n2 nok2].
  simpl in *. subst q2 n2. rewrite F1, G1, F2, G2. reflexivity.
Qed.

(** The validation with equal flags, up to the checker. *)
Lemma validate_conversions im (apiContext : APIContext) (schema : Schema) data id :
  present data quotaField = present data namespaceQuotaField →
  validateResourceQuota im apiContext schema data id
  = let '(nsQuota, err) := ToObj_namespaceQuota im (index data namespaceQuotaField).1 in
    match err with
    | Some e => Some e
    | None =>
        let '(projectQuota, err) := ToObj_projectQuota im (index data quotaField).1 in
        match err with
        | Some e => Some e
        | None =>
            let '(projectQuotaLimit, err) := limitToLimit im (mgmtclient.Limit projectQuota) in
            match err with
            | Some e => Some e
            | None =>
                let '(nsQuotaLimit, err) := limitToLimit im (mgmtclient.ns_Limit nsQuota) in
                match err with
                | Some e => Some e
                | None =>
                    let '(isFit, msg, err) := IsQuotaFit im nsQuotaLimit [] projectQuotaLimit in
                    if bool_decide (err ≠ None) || isFit then err
                    else Some (ErrAPI (httperror.NewFieldAPIError httperror.MaxLimitExceeded
                                         namespaceQuotaField
                                         ("exceeds " ++ quotaField ++ " on fields: " ++ msg)))
                end
            end
        end
    end.
Proof.
  intros Heq. unfold validateResourceQuota.
  pose proof (index_present data quotaField) as Hq.
  pose proof (index_present data namespaceQuotaField) as Hn.
  destruct (index data quotaField) as [quotaO quotaOk].
  destruct (index data namespaceQuotaField) as [nsQuotaO namespaceQuotaOk].
  simpl in *. rewrite Hq, Hn, Heq, Bool.eqb_reflx. reflexivity.
Qed.

(** An error of a conversion ends the validation with that error, in the
    order of the source: the namespace quota, the project quota, the
    project limit, the namespace limit.  The first one to fail decides,
    whatever the later conversions and the checker would say. *)
Theorem conversion_errors_come_first
    im (apiContext : APIContext) (schema : Schema) data id e :
  present data quotaField = present data namespaceQuotaField →
  (∀ nsQuota,
     ToObj_namespaceQuota im (index data namespaceQuotaField).1 = (nsQuota, Some e) →
     validateResourceQuota im apiContext schema data id = Some e)
  ∧ (∀ nsQuota projectQuota,
       ToObj_namespaceQuota im (index data namespaceQuotaField).1 = (nsQuota, None) →
       ToObj_projectQuota im (index data quotaField).1 = (projectQuota, Some e) →
       validateResourceQuota im apiContext schema data id = Some e)
  ∧ (∀ nsQuota projectQuota projectQuotaLimit,
       ToObj_namespaceQuota im (index data namespaceQuotaField).1 = (nsQuota, None) →
       ToObj_projectQuota im (index data quotaField).1 = (projectQuota, None) →
       limitToLimit im (mgmtclient.Limit projectQuota) = (projectQuotaLimit, Some e) →
       validateResourceQuota im apiContext schema data id = Some e)
  ∧ (∀ nsQuota projectQuota projectQuotaLimit nsQuotaLimit,
       ToObj_namespaceQuota im (index data namespaceQuotaField).1 = (nsQuota, None) →
       ToObj_projectQuota im (index data quotaField).1 = (projectQuota, None) →
       limitToLimit im (mgmtclient.Limit projectQuota) = (projectQuotaLimit, None) →
       limitToLimit im (mgmtclient.ns_Limit nsQuota) = (nsQuotaLimit, Some e) →
       validateResourceQuota im apiContext schema data id = Some e).
Proof.
  intros Heq. rewrite (validate_conversions im apiContext schema data id Heq).
  repeat split.
  - intros nsQuota ->. reflexivity.
  - intros nsQuota projectQuota -> ->. reflexivity.
  - intros nsQuota projectQuota projectQuotaLimit -> -> ->. reflexivity.
  - intros nsQuota projectQuota projectQuotaLimit nsQuotaLimit -> -> -> ->. reflexivity.
Qed.

(** A pair of quotas the checker accepts passes, whatever message the
    checker gives along, and the update goes to the wrapped store as it
    came; its answer, error included, is the answer of the update. *)
Theorem fit_quota_passes
    s im (apiContext : APIContext) (schema : Schema) data id tr
    nsQuota projectQuota projectQuotaLimit nsQuotaLimit msg :
  present data quotaField = present data namespaceQuotaField →
  ToObj_namespaceQuota im (index data namespaceQuotaField).1 = (nsQuota, None) →
  ToObj_projectQuota im (index data quotaField).1 = (projectQuota, None) →
  limitToLimit im (mgmtclient.Limit projectQuota) = (projectQuotaLimit, None) →
  limitToLimit im (mgmtclient.ns_Limit nsQuota) = (nsQuotaLimit, None) →
  IsQuotaFit im nsQuotaLimit [] projectQuotaLimit = (true, msg, None) →
  validateResourceQuota im apiContext schema data id = None
  ∧ Update s im apiContext schema data id tr
    = (Returns (Store_Update (embedded s) apiContext schema data id, data),
       (tr ++ [EvStoreUpdate apiContext schema data id])%list).
Proof.
  intros Heq Hns Hp Hpl Hnl Hfit.
  assert (validateResourceQuota im apiContext schema data id = None) as Hv.
  { rewrite (validate_conversions im apiContext schema data id Heq).
    by rewrite Hns, Hp, Hpl, Hnl, Hfit. }
  split; [exact Hv|]. unfold Update. by rewrite Hv.
Qed.

(** An update never panics, never changes the payload and never asks a
    lister; it calls the wrapped store at most once, with the payload and
    the id it was given, and then returns the store's answer; without
    that call it returns a nil map and the validation's error. *)
Theorem Update_validates_then_delegates
    s im (apiContext : APIContext) (schema : Schema) data id tr :
  ∃ r more,
    Update s im apiContext schema data id tr = (Returns (r, data), (tr ++ more)%list)
    ∧ ((more = [] ∧ r.1 = None ∧ r.2 ≠ None
        ∧ r.2 = validateResourceQuota im apiContext schema data id)
       ∨ (more = [EvStoreUpdate apiContext schema data id]
          ∧ r = Store_Update (embedded s) apiContext schema data id
          ∧ validateResourceQuota im apiContext schema data id = None)).
Proof.
  unfold Update.
  destruct (validateResourceQuota im apiContext schema data id) as [e|].
  - exists (None, Some e), []. split; [by rewrite List.app_nil_r|]. left. by repeat split.
  - eexists _, [_]. split; [reflexivity|]. right. by repeat split.
Qed.

(** A create never panics and always lists the role templates first.  It
    calls the wrapped store at most once, as its last step, with the
    payload holding the annotation, and only when the listing and the
    validation gave no error; otherwise it returns a nil map and an error,
    and the payload is as it came. *)
Theorem Create_lists_validates_then_delegates
    s im (apiContext : APIContext) (schema : Schema) data tr :
  ∃ r data' more,
    Create s im apiContext schema data tr
    = (Returns (r, data'), (tr ++ EvRoleTemplateList "" :: more)%list)
    ∧ ((more = [] ∧ data' = data ∧ r.1 = None ∧ r.2 ≠ None
        ∧ ((roleTemplateLister s "").2 = None →
           r.2 = validateResourceQuota im apiContext schema data ""))
       ∨ (∃ annotation,
            more = [EvStoreCreate apiContext schema data']
            ∧ data' = annotated data annotation
            ∧ r = Store_Create (embedded s) apiContext schema data'
            ∧ (roleTemplateLister s "").2 = None
            ∧ validateResourceQuota im apiContext schema data "" = None)).
Proof.
  unfold Create, createProjectAnnotation, mbind, M_bind, call.
  destruct (roleTemplateLister s "") as [rt [e|]]; simpl.
  - exists (None, Some e), data, []. split; [reflexivity|]. left. by repeat split.
  - destruct (validateResourceQuota im apiContext schema data "") as [e|].
    + exists (None, Some e), data, []. split; [reflexivity|]. left. by repeat split.
    + eexists _, _, [_]. split; [by rewrite <- List.app_assoc|].
      right. eexists. by repeat split.
Qed.

End Order.

(** ** The payload a create hands on *)

Section HandedOn.

Context {APIContext Schema : Type}.
Implicit Types (s : @projectStore APIContext Schema) (im : Imports).
Implicit Types (data : payload) (tr : list (@event APIContext Schema)).

(** A create that gets past the listing and the validation replaces what
    the caller put under the reserved key of [annotations] by the
    annotation it computed, and changes nothing else: the other
    annotations and the other fields of the payload reach the wrapped
    store as they came. *)
Theorem Create_replaces_reserved_annotation
    s im (apiContext : APIContext) (schema : Schema) (m annotations : gmap string value) tr rt :
  roleTemplateLister s "" = (rt, None) →
  validateResourceQuota im apiContext schema (Some m) "" = None →
  m !! "annotations" = Some (VMap annotations)
  ∨ (m !! "annotations" = None ∧ annotations = ∅) →
  ∃ annotation m' annotations',
    Create s im apiContext schema (Some m) tr
    = (Returns (Store_Create (embedded s) apiContext schema (Some m'), Some m'),
       (tr ++ [EvRoleTemplateList ""; EvStoreCreate apiContext schema (Some m')])%list)
    ∧ jsontext.Unmarshal annotation = Some (annoTreeOf (creatorDefaults rt))
    ∧ m' !! "annotations" = Some (VMap annotations')
    ∧ annotations' !! roleTemplatesRequired = Some (VString annotation)
    ∧ (∀ key, key ≠ roleTemplatesRequired → annotations' !! key = annotations !! key)
    ∧ (∀ field, field ≠ "annotations" → m' !! field = m !! field).
Proof.
  intros Hlist Hv Hm.
  exists (json.encodeMap (annoMapOf (creatorDefaults rt))).
  rewrite (Create_passed s im apiContext schema (Some m) tr rt Hlist Hv). cbv zeta.
  unfold annotated, values.PutValue.
  cbn [fmap option_fmap option_map values.putValue].
  destruct Hm as [Hm | [Hm ->]]; rewrite Hm.
  - eexists _, _. split; [reflexivity|].
    split; [apply Unmarshal_annoMapOf|].
    split; [apply lookup_insert_eq|]. split; [apply lookup_insert_eq|].
    split; intros k Hk; by rewrite lookup_insert_ne.
  - eexists _, _. split; [reflexivity|].
    split; [apply Unmarshal_annoMapOf|].
    split; [apply lookup_insert_eq|]. split; [apply lookup_insert_eq|].
    split; intros k Hk; by rewrite lookup_insert_ne.
Qed.

(** Where there is no map to put the annotation in, a create that gets
    past the listing and the validation drops it without an error: a nil
    payload, or one whose [annotations] is something else than a map,
    reaches the wrapped store unchanged. *)
Theorem Create_drops_annotation_without_map
    s im (apiContext : APIContext) (schema : Schema) data tr rt :
  roleTemplateLister s "" = (rt, None) →
  validateResourceQuota im apiContext schema data "" = None →
  data = None
  ∨ (∃ m v, data = Some m ∧ m !! "annotations" = Some v ∧ ∀ a, v ≠ VMap a) →
  Create s im apiContext schema data tr
  = (Returns (Store_Create (embedded s) apiContext schema data, data),
     (tr ++ [EvRoleTemplateList ""; EvStoreCreate apiContext schema data])%list).
Proof.
  intros Hlist Hv Hodd.
  rewrite (Create_passed s im apiContext schema data tr rt Hlist Hv). cbv zeta.
  assert (∀ annotation, annotated data annotation = data) as ->; [|reflexivity].
  intros annotation. destruct Hodd as [-> | (m & v & -> & Hm & Hv0)]; [reflexivity|].
  unfold annotated, values.PutValue.
  cbn [fmap option_fmap option_map values.putValue]. rewrite Hm.
  destruct v; try reflexivity. by destruct (Hv0 m0).
Qed.

Lemma creatorDefaults_filter rt :
  creatorDefaults (List.filter qualifies rt) = creatorDefaults rt.
Proof.
  unfold creatorDefaults. f_equal.
  induction rt as [|role rt IH]; [done|]. simpl.
  change (v3.ProjectCreatorDefault role && negb (v3.Locked role)) with (qualifies role).
  destruct (qualifies role) eqn:Hq; simpl.
  - change (v3.ProjectCreatorDefault role && negb (v3.Locked role)) with (qualifies role).
    rewrite Hq. by f_equal.
  - exact IH.
Qed.

(** Role templates that are locked, or no creator defaults, leave no
    trace in the annotation: a listing and the same listing without them
    give the same text. *)
Theorem annotation_ignores_other_templates s1 s2 rt tr :
  roleTemplateLister s1 "" = (rt, None) →
  roleTemplateLister s2 "" = (List.filter qualifies rt, None) →
  createProjectAnnotation s1 tr = createProjectAnnotation s2 tr.
Proof.
  intros H1 H2.
  rewrite (createProjectAnnotation_listed s1 rt tr H1).
  rewrite (createProjectAnnotation_listed s2 _ tr H2).
  by rewrite creatorDefaults_filter.
Qed.

(** The encoder copies a plain string. *)
Lemma stringLoop_plain fuel str :
  isPlain str = true → (String.length str ≤ fuel)%nat → json.stringLoop fuel str = str.
Proof.
  revert str. induction fuel as [|fuel IH]; intros [|b str] Hplain Hlen;
    try reflexivity; [simpl in Hlen; lia|].
  simpl in Hplain. apply andb_prop in Hplain as [Hb Hplain].
  apply andb_prop in Hb as [Hself Hsafe].
  cbn [json.stringLoop]. rewrite Hself, Hsafe.
  rewrite app_cons. change ("" ++ json.stringLoop fuel str) with (json.stringLoop fuel str).
  f_equal. apply IH; [done | simpl in Hlen; lia].
Qed.

Lemma encodeString_plain str : isPlain str = true → json.encodeString str = quoted str.
Proof.
  intros Hplain. unfold json.encodeString, quoted. by rewrite stringLoop_plain.
Qed.

Lemma encodeString_plain_names names :
  Forall (fun name => isPlain name = true) names →
  json.encodeString <$> names = quoted <$> names.
Proof.
  induction 1 as [|x l Hx _ IH]; [done|].
  rewrite !fmap_cons. by rewrite (encodeString_plain x Hx), IH.
Qed.

(** The text of the annotation, byte by byte, for plain names: the
    compact JSON object with the names between quotes, separated by
    commas and nothing else, in the order of the listing. *)
Theorem annotation_text_of_plain_names s rt tr :
  roleTemplateLister s "" = (rt, None) →
  Forall (fun name => isPlain name = true) (creatorDefaults rt) →
  creatorDefaults rt ≠ [] →
  createProjectAnnotation s tr
  = (Returns ("{" ++ quoted "required" ++ ":[" ++ json.join (quoted <$> creatorDefaults rt)
              ++ "]}", None),
     (tr ++ [EvRoleTemplateList ""])%list).
Proof.
  intros Hlist Hplain Hsome.
  rewrite (createProjectAnnotation_listed s rt tr Hlist), encodeMap_annoMapOf.
  destruct (creatorDefaults rt) as [|n names]; [done|].
  do 3 f_equal. unfold json.encodeMember, json.encodeSlice. cbn [fst snd].
  replace (json.encodeString <$> n :: names) with (quoted <$> n :: names).
  - change (json.encodeString "required") with (quoted "required").
    rewrite !app_assoc. reflexivity.
  - symmetry. by apply encodeString_plain_names.
Qed.

End HandedOn.

(** ** Further examples *)

Section MoreExamples.

Local Abbreviation idle := (exampleStore ([], None) (None, None)).

(** An id of three segments. *)
Lemma middle_segment_is_skipped :
  strings.Split "c-1:x:p-1" ":" = ["c-1"; "x"; "p-1"]
  ∧ ∃ r more, Delete idle () () "c-1:x:p-1" [] = (r, EvProjectGet "c-1" "p-1" :: more).
Proof.
  destruct (Delete_reads_outer_segments idle () () "c-1" ["x"] "p-1" [])
    as (Hsplit & _ & _ & Hrun); [repeat constructor|].
  split; [exact Hsplit | exact Hrun].
Defined.

(** A lookup that answers with nothing at all. *)
Lemma empty_answer_panics :
  Delete idle () () "c-1:p-1" [] = (Panics, [EvProjectGet "c-1" "p-1"]).
Proof.
  destruct (Delete_panics_only_without_project idle () () "c-1:p-1" []) as [_ Hpanic].
  exact (Hpanic eq_refl).
Defined.

(** A name and a label next to the quotas change nothing. *)
Lemma other_fields_are_not_read :
  validateResourceQuota (imports plainQuantity) () () (quotaPayload "5" "10") ""
  = validateResourceQuota (imports plainQuantity) () ()
      (Some (<["name" := VString "billing"]> (<["labels" := VNil]>
               {[ "resourceQuota" := podsQuota "5";
                  "namespaceDefaultResourceQuota" := podsQuota "10" ]}))) "c-1:p-1".
Proof.
  apply validation_reads_two_fields; vm_compute; reflexivity.
Defined.

(** Quotas that are strings: the first conversion fails. *)
Lemma string_quota_does_not_convert :
  validateResourceQuota (imports plainQuantity) () ()
    (Some {[ quotaField := VString "5"; namespaceQuotaField := VString "10" ]}) ""
  = Some convert.conversionError.
Proof.
  destruct (conversion_errors_come_first (imports plainQuantity) () ()
              (Some {[ quotaField := VString "5"; namespaceQuotaField := VString "10" ]})
              "" convert.conversionError)
    as (Hfirst & _); [vm_compute; reflexivity|].
  apply (Hfirst (mgmtclient.mkNamespaceResourceQuota None)). vm_compute. reflexivity.
Defined.

(** A namespace default of five pods in a project of ten. *)
Lemma five_pods_fit_ten :
  validateResourceQuota (imports plainQuantity) () () (quotaPayload "10" "5") "c-1:p-1" = None
  ∧ Update idle (imports plainQuantity) () () (quotaPayload "10" "5") "c-1:p-1" []
    = (Returns ((quotaPayload "10" "5", None), quotaPayload "10" "5"),
       [EvStoreUpdate () () (quotaPayload "10" "5") "c-1:p-1"]).
Proof.
  refine (fit_quota_passes idle (imports plainQuantity) () () (quotaPayload "10" "5")
            "c-1:p-1" []
            (mgmtclient.mkNamespaceResourceQuota (Some {[ "pods" := "5" ]}))
            (mgmtclient.mkProjectResourceQuota (Some {[ "pods" := "10" ]}) None)
            {[ "pods" := "10" ]} {[ "pods" := "5" ]} "" _ _ _ _ _ _);
    vm_compute; reflexivity.
Defined.

(** A payload with a forged annotation and one of the caller's own. *)
Lemma forged_annotation_is_replaced :
  ∃ annotation m' annotations',
    Create (exampleStore ([owner], None) (None, None)) (imports plainQuantity) () ()
      (Some forgedPayload) []
    = (Returns ((Some m', None), Some m'),
       [EvRoleTemplateList ""; EvStoreCreate () () (Some m')])
    ∧ jsontext.Unmarshal annotation
      = Some (jsontext.JObject [("required", jsontext.JArray [jsontext.JString "owner"])])
    ∧ m' !! "annotations" = Some (VMap annotations')
    ∧ annotations' !! roleTemplatesRequired = Some (VString annotation)
    ∧ annotations' !! "team" = Some (VString "payments")
    ∧ m' !! "name" = Some (VString "billing").
Proof.
  assert (validateResourceQuota (imports plainQuantity) () () (Some forgedPayload) "" = None)
    as Hv by (vm_compute; reflexivity).
  destruct (Create_replaces_reserved_annotation
              (exampleStore ([owner], None) (None, None)) (imports plainQuantity) () ()
              forgedPayload
              {[ roleTemplatesRequired := VString "forged"; "team" := VString "payments" ]}
              [] [owner] eq_refl Hv)
    as (annotation & m' & annotations' & Hrun & Hread & Hm & Ha & Hrest & Hfields);
    [left; vm_compute; reflexivity|].
  exists annotation, m', annotations'.
  split; [exact Hrun|]. split; [exact Hread|]. split; [exact Hm|]. split; [exact Ha|].
  split.
  - rewrite (Hrest "team"); [vm_compute; reflexivity | vm_compute; discriminate].
  - rewrite (Hfields "name"); [vm_compute; reflexivity | vm_compute; discriminate].
Defined.

(** A create without a payload. *)
Lemma nil_payload_gets_no_annotation :
  Create (exampleStore ([owner], None) (None, None)) (imports plainQuantity) () () None []
  = (Returns ((None, None), None), [EvRoleTemplateList ""; EvStoreCreate () () None]).
Proof.
  refine (Create_drops_annotation_without_map
            (exampleStore ([owner], None) (None, None)) (imports plainQuantity) () ()
            None [] [owner] eq_refl _ _).
  - vm_compute. reflexivity.
  - left. reflexivity.
Defined.

(** The locked [legacy] listed, or not. *)
Lemma legacy_makes_no_difference :
  createProjectAnnotation (exampleStore ([owner; legacy; editor], None) (None, None)) []
  = createProjectAnnotation (exampleStore ([owner; editor], None) (None, None)) [].
Proof.
  apply (annotation_ignores_other_templates
           (exampleStore ([owner; legacy; editor], None) (None, None))
           (exampleStore ([owner; editor], None) (None, None))
           [owner; legacy; editor] []); reflexivity.
Defined.

(** The text for [owner], [editor] and the locked [legacy]. *)
Lemma owner_and_editor_text :
  createProjectAnnotation (exampleStore ([owner; editor; legacy], None) (None, None)) []
  = (Returns ("{" ++ quoted "required" ++ ":[" ++ quoted "owner" ++ "," ++ quoted "editor"
              ++ "]}", None),
     [EvRoleTemplateList ""]).
Proof.
  refine (annotation_text_of_plain_names
            (exampleStore ([owner; editor; legacy], None) (None, None))
            [owner; editor; legacy] [] eq_refl _ _).
  - repeat constructor.
  - vm_compute. discriminate.
Defined.

End MoreExamples.

(** ** Create and Update side by side *)

Section SideBySide.

Context {APIContext Schema : Type}.
Implicit Types (s : @projectStore APIContext Schema) (im : Imports).
Implicit Types (data : payload) (tr : list (@event APIContext Schema)).

Lemma snoc_neq {A : Type} (l : list A) (x : A) : (l ++ [x])%list ≠ l.
Proof.
  intros Heq. apply (f_equal length) in Heq.
  rewrite List.length_app in Heq. simpl in Heq. lia.
Qed.

(** With the role templates listed, a create and an update turn the same
    payloads away, with the same error: an update that returns an error
    without calling the wrapped store goes with a create that does the
    same after its listing, whatever the id of the update. *)
Theorem Create_and_Update_refuse_alike
    s im (apiContext : APIContext) (schema : Schema) data id tr rt e :
  roleTemplateLister s "" = (rt, None) →
  Update s im apiContext schema data id tr = (Returns ((None, Some e), data), tr)
  ↔ Create s im apiContext schema data tr
    = (Returns ((None, Some e), data), (tr ++ [EvRoleTemplateList ""])%list).
Proof.
  intros Hlist.
  destruct (validateResourceQuota im apiContext schema data "") as [e'|] eqn:Hv.
  - rewrite (Update_refused s im apiContext schema data id tr e' Hv).
    destruct (Create_refused s im apiContext schema data tr e' Hv) as (e0 & -> & He0 & _).
    rewrite He0 by (by rewrite Hlist). split; intros [= ->]; reflexivity.
  - rewrite (Update_passed s im apiContext schema data id tr Hv).
    rewrite (Create_passed s im apiContext schema data tr rt Hlist Hv). cbv zeta.
    split; intros Htr; apply (f_equal snd) in Htr; simpl in Htr; exfalso.
    + by apply snoc_neq in Htr.
    + change [EvRoleTemplateList "";
              EvStoreCreate apiContext schema
                (annotated data (json.encodeMap (annoMapOf (creatorDefaults rt))))]
        with ([EvRoleTemplateList ""]
              ++ [EvStoreCreate apiContext schema
                    (annotated data (json.encodeMap (annoMapOf (creatorDefaults rt))))])%list
        in Htr.
      rewrite List.app_assoc in Htr. by apply snoc_neq in Htr.
Qed.

End SideBySide.

Section SideBySideExample.

(** A project quota alone, on update and on create. *)
Lemma refused_on_update_refused_on_create :
  let data := Some {[ quotaField := podsQuota "5" ]} in
  Create (exampleStore ([owner], None) (None, None)) (imports plainQuantity) () () data []
  = (Returns ((None, Some (missingRequired namespaceQuotaField)), data),
     [EvRoleTemplateList ""]).
Proof.
  cbv zeta.
  apply (Create_and_Update_refuse_alike
           (exampleStore ([owner], None) (None, None)) (imports plainQuantity) () ()
           (Some {[ quotaField := podsQuota "5" ]}) "c-1:p-1" [] [owner]
           (missingRequired namespaceQuotaField) eq_refl).
  vm_compute. reflexivity.
Defined.

End SideBySideExample.
